(** * log_analyzer: the parsing / aggregation / ranking pipeline

    A shallow embedding of [log_analyzer.py]: [parse_line],
    [summarize_report] and [create_report], together with the Python
    builtins they rely on ([round], [max], [sorted], [statistics.median],
    true division), over IEEE-754 binary64 numbers; then
    [_fetch_date_from_file_name], [get_last_log] and [main], over a system
    that is a parameter. *)

From Stdlib Require Import ZArith Ascii String.
From Stdlib Require Import Floats.PrimFloat Floats.SpecFloat Floats.FloatOps.
From Stdlib Require Import Floats.FloatAxioms Sorting.Sorted.
From stdpp Require Import base option list strings gmap.

Local Open Scope Z_scope.

(** ** Exceptions and results *)

(** The exception classes that the modelled code can raise. *)
Inductive exn : Set :=
| KeyError
| ValueError
| TypeError
| ZeroDivisionError
| OverflowError
| StatisticsError.

Inductive result (A : Type) : Type :=
| Ok (a : A)
| Raise (e : exn).

Arguments Ok {A} a.
Arguments Raise {A} e.

#[global] Instance result_ret : MRet result := fun _ a => Ok a.

#[global] Instance result_bind : MBind result := fun _ _ k r =>
  match r with
  | Ok a => k a
  | Raise e => Raise e
  end.

(** [StatisticsError] derives from [ValueError]. *)
Definition is_ValueError (e : exn) : bool :=
  match e with
  | ValueError | StatisticsError => true
  | _ => false
  end.

Definition is_KeyError (e : exn) : bool :=
  match e with
  | KeyError => true
  | _ => false
  end.

(** ** Python numbers

    [int] is [Z]; [float] is a binary64 number, here Rocq's primitive
    [float]. *)

Module Py.

(** The binary64 number nearest to [p / q] (ties to even), with sign [s];
    an infinity when the quotient is out of range. *)
Definition nearest_ratio (s : bool) (p q : positive) : spec_float :=
  let '(mz, ez, lz) := SFdiv_core_binary prec emax (Zpos p) 0 (Zpos q) 0 in
  binary_round_aux prec emax s mz ez lz.

Definition finite_or_overflow (x : spec_float) : result float :=
  match x with
  | S754_infinity _ => Raise OverflowError
  | _ => Ok (SF2Prim x)
  end.

(** [float(n)] for an [int] [n]: correctly rounded, [OverflowError]
    when [n] is too large. *)
Definition float_of_int (n : Z) : result float :=
  finite_or_overflow (binary_normalize prec emax n 0 false).

(** [a / b] on two [int]s. *)
Definition int_truediv (a b : Z) : result float :=
  match b with
  | Z0 => Raise ZeroDivisionError
  | _ =>
      let negate := xorb (a <? 0) (b <? 0) in
      match Z.abs a, Z.abs b with
      | Zpos p, Zpos q => finite_or_overflow (nearest_ratio negate p q)
      | _, _ => Ok (SF2Prim (S754_zero negate))
      end
  end.

(** [x / y] on two [float]s. *)
Definition float_truediv (x y : float) : result float :=
  if PrimFloat.eqb y 0%float then Raise ZeroDivisionError
  else Ok (PrimFloat.div x y).

(** [x / n] for a [float] [x] and an [int] [n]. *)
Definition float_div_int (x : float) (n : Z) : result float :=
  y ← float_of_int n; float_truediv x y.

(** Nearest integer to [p / q], ties to even. *)
Definition round_half_even (p q : Z) : Z :=
  let k := p / q in
  let r := p mod q in
  match 2 * r ?= q with
  | Lt => k
  | Gt => k + 1
  | Eq => if Z.even k then k else k + 1
  end.

(** [round(x, ndigits)] for a [float] [x]: the exact value of [x] is
    rounded to [ndigits] decimal places (ties to even) and the decimal
    obtained is converted back to the nearest [float]. *)
Definition round (x : float) (ndigits : Z) : result float :=
  match Prim2SF x with
  | S754_finite s m e =>
      if 323 <? ndigits then Ok x
      else if ndigits <? -308 then Ok (SF2Prim (S754_zero s))
      else
        (* |x| * 10^ndigits = num / den *)
        let num := Zpos m * 2 ^ Z.max e 0 * 10 ^ Z.max ndigits 0 in
        let den := 2 ^ Z.max (- e) 0 * 10 ^ Z.max (- ndigits) 0 in
        match round_half_even num den * 10 ^ Z.max (- ndigits) 0 with
        | Zpos p =>
            finite_or_overflow
              (nearest_ratio s p (Z.to_pos (10 ^ Z.max ndigits 0)))
        | _ => Ok (SF2Prim (S754_zero s))
        end
  | _ => Ok x
  end.

(** [max(l)]: the first maximal item; [ValueError] on an empty list. *)
Definition max (l : list float) : result float :=
  match l with
  | [] => Raise ValueError
  | x :: l' =>
      Ok (fold_left (λ m item, if PrimFloat.ltb m item then item else m) l' x)
  end.

(** [sorted(l, key=key)]: a stable sort that compares keys with [<] only.
    It is CPython's result whenever [<] is a strict weak order on the keys
    met, which for [float] keys means that none of them is a NaN. *)
Section Sorted.
Context {A : Type} (key : A -> float).

Fixpoint insert_sorted (x : A) (l : list A) : list A :=
  match l with
  | [] => [x]
  | y :: l' =>
      if PrimFloat.ltb (key y) (key x) then y :: insert_sorted x l'
      else x :: l
  end.

Definition sorted (l : list A) : list A := foldr insert_sorted [] l.
End Sorted.

(** [l[:n]] *)
Definition slice_to {A} (l : list A) (n : Z) : list A :=
  if 0 <=? n then take (Z.to_nat n) l
  else take (length l - Z.to_nat (- n))%nat l.

(** [statistics.median(data)]; as [sorted], it is CPython's result when no
    item of [data] is a NaN. *)
Definition median (data : list float) : result float :=
  let data := sorted id data in
  let n := length data in
  if (n =? 0)%nat then Raise StatisticsError
  else if (n mod 2 =? 1)%nat then Ok (nth (n / 2) data 0%float)
  else
    let i := (n / 2)%nat in
    float_div_int
      (PrimFloat.add (nth (i - 1) data 0%float) (nth i data 0%float)) 2.

End Py.

(** ** Data model *)

(** One value of the [report] dictionary: a [defaultdict(int)] whose keys
    are ['url'], ['requests'], ['count'] and ['time_sum'], to which
    [summarize_report] adds the five derived keys and from which it removes
    ['requests'].  A key that may be absent is an [option]; ['count'] and
    ['time_sum'] read as [0] when absent, as the [defaultdict] has it: that
    reading them then inserts the key is not shown.  The values that the
    loop of [create_report] builds have both keys. *)
Record url_report : Type := UrlReport {
  url : option string;
  requests : option (list float);
  count : Z;
  time_sum : float;
  count_perc : option float;
  time_perc : option float;
  time_avg : option float;
  time_max : option float;
  time_med : option float
}.

(** A fresh [defaultdict(int)]. *)
Definition empty_url_report : url_report :=
  UrlReport None None 0 0%float None None None None None.

#[global] Instance url_report_inhabited : Inhabited url_report :=
  populate empty_url_report.

(** The [report] dictionary, its items in insertion order.  A value is
    referred to by its position: [summarize_report] updates the values in
    place and returns references to them. *)
Abbreviation report_dict := (list (string * url_report)).

(** [Report = namedtuple('Report', ('report', 'total_requests',
    'total_errors'))] *)
Record Report : Type := mkReport {
  report : list url_report;
  total_requests : Z;
  total_errors : Z
}.

(** The local variables of [create_report]. *)
Record locals : Type := Locals {
  l_total_requests : Z;
  l_total_requests_time : float;
  l_total_errors : Z;
  l_report : report_dict
}.

(** A match object's [groupdict()]. *)
Abbreviation groupdict := (gmap string string).

(** A compiled pattern, by what [pattern.match(line)] gives: [None] or the
    named groups of the match. *)
Definition pattern := string -> option groupdict.

(** ** Updates of one [url_report] *)

Definition set_url_requests (u : string) (l : list float) (v : url_report) :
  url_report :=
  UrlReport (Some u) (Some l) (count v) (time_sum v)
    (count_perc v) (time_perc v) (time_avg v) (time_max v) (time_med v).

Definition set_count (c : Z) (v : url_report) : url_report :=
  UrlReport (url v) (requests v) c (time_sum v)
    (count_perc v) (time_perc v) (time_avg v) (time_max v) (time_med v).

Definition set_time_sum (t : float) (v : url_report) : url_report :=
  UrlReport (url v) (requests v) (count v) t
    (count_perc v) (time_perc v) (time_avg v) (time_max v) (time_med v).

(** [v['requests'].append(x)] *)
Definition append_request (x : float) (v : url_report) : url_report :=
  UrlReport (url v) ((λ l, l ++ [x]) <$> requests v) (count v) (time_sum v)
    (count_perc v) (time_perc v) (time_avg v) (time_max v) (time_med v).

(** What [v.pop('requests')] leaves of [v]. *)
Definition pop_requests (v : url_report) : url_report :=
  UrlReport (url v) None (count v) (time_sum v)
    (count_perc v) (time_perc v) (time_avg v) (time_max v) (time_med v).

(** The five derived values, in the order in which they are computed. *)
Record derived : Type := Derived {
  d_count_perc : float;
  d_time_perc : float;
  d_time_avg : float;
  d_time_max : float;
  d_time_med : float
}.

(** [v.update(count_perc=..., time_perc=..., time_avg=..., time_max=...,
    time_med=...)] *)
Definition update_derived (s : derived) (v : url_report) : url_report :=
  UrlReport (url v) (requests v) (count v) (time_sum v)
    (Some (d_count_perc s)) (Some (d_time_perc s)) (Some (d_time_avg s))
    (Some (d_time_max s)) (Some (d_time_med s)).

(** ** The [report] dictionary as a store *)

(** Position of key [k]. *)
Fixpoint index_of (k : string) (d : report_dict) : option nat :=
  match d with
  | [] => None
  | (k', _) :: d' => if decide (k = k') then Some 0%nat else S <$> index_of k d'
  end.

(** [report[k]] on the outer [defaultdict]: the reference to the value at
    [k], a fresh [defaultdict(int)] being inserted when [k] is new. *)
Definition getitem (k : string) (d : report_dict) : nat * report_dict :=
  match index_of k d with
  | Some i => (i, d)
  | None => (length d, d ++ [(k, empty_url_report)])
  end.

(** Dereference. *)
Definition value_at (d : report_dict) (i : nat) : url_report := (d !!! i).2.

(** In-place update of the value that [i] refers to. *)
Definition update_value (i : nat) (f : url_report -> url_report)
  (d : report_dict) : report_dict :=
  alter (λ kv, (kv.1, f kv.2)) i d.

(** ** The pipeline *)

Section Pipeline.

(** The builtin [float(s)] on a [str]: [None] stands for [ValueError]. *)
Variable py_float : string -> option float.

(** [parse_line(line, pattern)]; the debug message is not modelled. *)
Definition parse_line (line : string) (p : pattern) : option groupdict :=
  match p line with
  | Some parsed_line => Some parsed_line
  | None => None
  end.

(** [d[k]] on a [groupdict()]. *)
Definition group (request : groupdict) (k : string) : result string :=
  match request !! k with
  | Some s => Ok s
  | None => Raise KeyError
  end.

(** The body of the [try] of [create_report]: subscripting [None] raises
    [TypeError]. *)
Definition read_request (line : string) (p : pattern) :
  result (string * float) :=
  match parse_line line p with
  | None => Raise TypeError
  | Some request =>
      url ← group request "remote_addr";
      s ← group request "request_time";
      match py_float s with
      | Some request_time => Ok (url, request_time)
      | None => Raise ValueError
      end
  end.

(** [except (ValueError, KeyError)] *)
Definition caught (e : exn) : bool := is_ValueError e || is_KeyError e.

(** The loop body after the [try], lines 180 to 189.  ['requests'] is
    present when it is appended to: line 181 has set it. *)
Definition add_request (url : string) (request_time : float) (accuracy : Z)
  (st : locals) : result locals :=
  let '(i, d) := getitem url (l_report st) in
  let d :=
    match requests (value_at d i) with
    | None => update_value i (set_url_requests url []) d
    | Some _ => d
    end in
  let d := update_value i (λ v, set_count (count v + 1) v) d in
  t ← Py.round (PrimFloat.add (time_sum (value_at d i)) request_time)
        accuracy;
  let d := update_value i (set_time_sum t) d in
  let d := update_value i (append_request request_time) d in
  total ← Py.round (PrimFloat.add (l_total_requests_time st) request_time)
            accuracy;
  Ok (Locals (l_total_requests st) total (l_total_errors st) d).

(** The [for] loop of [create_report] over the lines of the file, which
    the first caught exception leaves ([break]). *)
Fixpoint read_lines (lines : list string) (p : pattern) (accuracy : Z)
  (st : locals) : result locals :=
  match lines with
  | [] => Ok st
  | line :: lines' =>
      let st :=
        Locals (l_total_requests st + 1) (l_total_requests_time st)
          (l_total_errors st) (l_report st) in
      match read_request line p with
      | Ok (url, request_time) =>
          st' ← add_request url request_time accuracy st;
          read_lines lines' p accuracy st'
      | Raise e =>
          if caught e then
            Ok (Locals (l_total_requests st) (l_total_requests_time st)
                  (l_total_errors st + 1) (l_report st))
          else Raise e
      end
  end.

(** [total_requests = total_requests_time = total_errors = 0] and an empty
    [report]. *)
Definition initial : locals := Locals 0 0%float 0 [].

(** The state in which [create_report] calls [summarize_report]. *)
Definition accumulate (lines : list string) (p : pattern) (accuracy : Z) :
  result locals :=
  read_lines lines p accuracy initial.

End Pipeline.

(** ** [summarize_report] *)

(** [sorted(report.values(), key=lambda item: item['time_sum'])
    [:top_reports_size]], as references; the order is that of the code
    when no ['time_sum'] is a NaN. *)
Definition top_reports (d : report_dict) (size : Z) : list nat :=
  let top_reports_size :=
    if size <? Z.of_nat (length d) then size else Z.of_nat (length d) in
  Py.slice_to
    (Py.sorted (λ i, time_sum (value_at d i)) (seq 0 (length d)))
    top_reports_size.

(** The values of the keyword arguments of [url_report.update], computed
    left to right. *)
Definition derive (v : url_report) (url_requests : list float)
  (total_requests : Z) (total_requests_time : float) (accuracy : Z) :
  result derived :=
  q ← Py.int_truediv (100 * count v) total_requests;
  cp ← Py.round q accuracy;
  q ← Py.float_truediv (PrimFloat.mul 100 (time_sum v)) total_requests_time;
  tp ← Py.round q accuracy;
  q ← Py.float_div_int (time_sum v) (count v);
  ta ← Py.round q accuracy;
  tmax ← Py.max url_requests;
  tmed ← Py.median url_requests;
  Ok (Derived cp tp ta tmax tmed).

(** The [for url_report in top_reports] loop: the dictionaries are updated
    in place, and what has been done stays done when an exception leaves
    the loop. *)
Fixpoint summarize_loop (refs : list nat) (total_requests : Z)
  (total_requests_time : float) (accuracy : Z) (d : report_dict) :
  result unit * report_dict :=
  match refs with
  | [] => (Ok (), d)
  | i :: refs' =>
      match requests (value_at d i) with
      | None => (Raise KeyError, d)
      | Some url_requests =>
          let d := update_value i pop_requests d in
          match
            derive (value_at d i) url_requests total_requests
              total_requests_time accuracy
          with
          | Raise e => (Raise e, d)
          | Ok s =>
              summarize_loop refs' total_requests total_requests_time accuracy
                (update_value i (update_derived s) d)
          end
      end
  end.

(** [summarize_report(report, total_requests, total_requests_time, size,
    accuracy)]: what it returns or raises, and the [report] it leaves.  The
    rows returned are the dictionaries of [report] themselves. *)
Definition summarize_report (d : report_dict) (total_requests : Z)
  (total_requests_time : float) (size accuracy : Z) :
  result (list url_report) * report_dict :=
  let refs := top_reports d size in
  match summarize_loop refs total_requests total_requests_time accuracy d with
  | (Ok _, d') => (Ok (value_at d' <$> refs), d')
  | (Raise e, d') => (Raise e, d')
  end.

(** [create_report(file_path, pattern, report_size, accuracy)], the file
    being given by its decoded lines. *)
Definition create_report (py_float : string -> option float)
  (lines : list string) (p : pattern) (report_size accuracy : Z) :
  result Report :=
  st ← accumulate py_float lines p accuracy;
  rows ← (summarize_report (l_report st) (l_total_requests st)
            (l_total_requests_time st) report_size accuracy).1;
  Ok (mkReport rows (l_total_requests st) (l_total_errors st)).

(** ** The pattern [LOG_LINE_PATTERN] and the builtin [float], on ASCII text

    A line is taken as its sequence of characters below U+0080; on such
    lines the definitions of this section are what [re] and [float] compute.
    The theorems about [create_report] hold for every pattern and for every
    [float]; these instances serve to run it. *)

Module Re.

(** The items of a pattern in sequence: one character of a class, a
    repetition of a class ([{lo,hi}], [+], [*], greedy or lazy), and the
    two ends of a named group. *)
Inductive item : Type :=
| Class (c : ascii -> bool)
| Repeat (c : ascii -> bool) (lo : nat) (hi : option nat) (greedy : bool)
| Open (name : string)
| Close (name : string).

(** The position in the line, the groups that are open with the position
    where each starts, and the spans of the groups that are closed. *)
Record mstate : Type := MState {
  pos : nat;
  opened : list (string * nat);
  closed : list (string * (nat * nat))
}.

Definition advance (st : mstate) : mstate :=
  MState (S (pos st)) (opened st) (closed st).

Definition open_group (name : string) (st : mstate) : mstate :=
  MState (pos st) ((name, pos st) :: opened st) (closed st).

Definition close_group (name : string) (st : mstate) : mstate :=
  match opened st with
  | (_, start) :: opened' =>
      MState (pos st) opened' ((name, (start, pos st)) :: closed st)
  | [] => st
  end.

Definition below (hi : option nat) (n : nat) : bool :=
  match hi with
  | Some h => (n <? h)%nat
  | None => true
  end.

(** Backtracking match of the items against a prefix of [s]: a greedy
    repetition tries one more character before it tries what follows, a
    lazy one the other way round. *)
Fixpoint run (items : list item) : list ascii -> mstate -> option mstate :=
  match items with
  | [] => λ _ st, Some st
  | Class c :: items' =>
      λ s st,
        match s with
        | ch :: s' => if c ch then run items' s' (advance st) else None
        | [] => None
        end
  | Open name :: items' => λ s st, run items' s (open_group name st)
  | Close name :: items' => λ s st, run items' s (close_group name st)
  | Repeat c lo hi greedy :: items' =>
      let continue := run items' in
      λ s st,
        (fix rep (s : list ascii) (n : nat) (st : mstate) {struct s} :
           option mstate :=
           let stop (_ : unit) :=
             if (lo <=? n)%nat then continue s st else None in
           let more (_ : unit) :=
             match s with
             | ch :: s' =>
                 if c ch && below hi n then rep s' (S n) (advance st)
                 else None
             | [] => None
             end in
           if greedy then
             match more () with Some r => Some r | None => stop () end
           else
             match stop () with Some r => Some r | None => more () end)
          s 0%nat st
  end.

(** [re.compile(...).match(line)], then [groupdict()]. *)
Definition compile (items : list item) : pattern :=
  λ line,
    match run items (list_ascii_of_string line) (MState 0 [] []) with
    | Some st =>
        Some (list_to_map
                ((λ g, (g.1, substring (g.2.1) (g.2.2 - g.2.1) line))
                   <$> closed st))
    | None => None
    end.

Definition code (c : ascii) : N := N_of_ascii c.

(** [\d] *)
Definition digit (c : ascii) : bool := ((48 <=? code c) && (code c <=? 57))%N.

(** [\s]: TAB, LF, VT, FF, CR, the separators U+001C to U+001F, space. *)
Definition space (c : ascii) : bool :=
  (((9 <=? code c) && (code c <=? 13))
   || ((28 <=? code c) && (code c <=? 32)))%N.

(** [\S] *)
Definition nonspace (c : ascii) : bool := negb (space c).

(** [.]: any character but the newline. *)
Definition dot (c : ascii) : bool := negb (code c =? 10)%N.

Definition lit (a : ascii) (c : ascii) : bool := (code c =? code a)%N.

Definition plus (c : ascii -> bool) : item := Repeat c 1 None true.

Definition named (name : string) (body : list item) : list item :=
  Open name :: body ++ [Close name].

(** The double quote, U+0022. *)
Definition dquote : ascii := ascii_of_N 34.

(** ["(?P<name>.+)"\s+] *)
Definition quoted (name : string) : list item :=
  Class (lit dquote) :: named name [plus dot]
    ++ [Class (lit dquote); plus space].

End Re.

(** [LOG_LINE_PATTERN] *)
Definition LOG_LINE_PATTERN : pattern :=
  let octet := Re.Repeat Re.digit 1 (Some 3%nat) true in
  let dot := Re.Class (Re.lit "."%char) in
  Re.compile
    (Re.named "remote_addr" [octet; dot; octet; dot; octet; dot; octet]
     ++ [Re.Class Re.space]
     ++ Re.named "remote_user" [Re.plus Re.nonspace] ++ [Re.plus Re.space]
     ++ Re.named "http_x_real_ip" [Re.plus Re.nonspace] ++ [Re.plus Re.space]
     ++ [Re.Class (Re.lit "["%char)]
     ++ Re.named "time_local" [Re.plus Re.dot]
     ++ [Re.Class (Re.lit "]"%char); Re.plus Re.space]
     ++ [Re.Class (Re.lit Re.dquote)]
     ++ Re.named "request" [Re.Repeat Re.dot 0 None false]
     ++ [Re.Class (Re.lit Re.dquote); Re.plus Re.space]
     ++ Re.named "status" [Re.Repeat Re.digit 3 (Some 3%nat) true]
     ++ [Re.plus Re.space]
     ++ Re.named "body_bytes_sent" [Re.plus Re.digit] ++ [Re.plus Re.space]
     ++ Re.quoted "http_referer"
     ++ Re.quoted "http_user_agent"
     ++ Re.quoted "http_x_forwarded_for"
     ++ Re.quoted "http_X_REQUEST_ID"
     ++ Re.quoted "http_X_RB_USER"
     ++ Re.named "request_time" [Re.plus Re.dot]).

Module Str.

Definition chr (a : ascii) (c : ascii) : bool := Re.lit a c.

(** Same letter, whatever the case; [a] is a lower case letter. *)
Definition letter (a : ascii) (c : ascii) : bool :=
  (Re.code c =? Re.code a)%N || (Re.code c + 32 =? Re.code a)%N.

Fixpoint span (p : ascii -> bool) (s : list ascii) :
  list ascii * list ascii :=
  match s with
  | c :: s' =>
      if p c then let '(a, b) := span p s' in (c :: a, b) else ([], s)
  | [] => ([], [])
  end.

(** TAB, LF, VT, FF, CR and space. *)
Definition blank (c : ascii) : bool :=
  (((9 <=? Re.code c) && (Re.code c <=? 13)) || (Re.code c =? 32))%N.

Definition strip (s : list ascii) : list ascii :=
  rev (span blank (rev (span blank s).2)).2.

(** An underscore stands between two digits only, and is dropped. *)
Fixpoint drop_underscores (prev : option ascii) (s : list ascii) :
  option (list ascii) :=
  match s with
  | [] =>
      match prev with
      | Some p => if chr "_" p then None else Some []
      | None => Some []
      end
  | c :: s' =>
      let after_digit := from_option Re.digit false prev in
      let after_underscore := from_option (chr "_") false prev in
      if chr "_" c then
        if after_digit then drop_underscores (Some c) s' else None
      else if after_underscore && negb (Re.digit c) then None
      else cons c <$> drop_underscores (Some c) s'
  end.

(** The number that a sequence of decimal digits writes. *)
Definition decimal (ds : list ascii) : Z :=
  fold_left (λ n c, 10 * n + (Z.of_N (Re.code c) - 48)) ds 0.

Definition sign (s : list ascii) : bool * list ascii :=
  match s with
  | c :: s' =>
      if chr "-" c then (true, s')
      else if chr "+" c then (false, s')
      else (false, s)
  | [] => (false, s)
  end.

Fixpoint prefix (w : list ascii) (s : list ascii) : option (list ascii) :=
  match w, s with
  | [], _ => Some s
  | a :: w', c :: s' => if letter a c then prefix w' s' else None
  | _ :: _, [] => None
  end.

(** [m * 10^e], correctly rounded; an infinity when it is too large. *)
Definition scaled (neg : bool) (m e : Z) : float :=
  match (m * 10 ^ Z.max e 0)%Z with
  | Zpos p =>
      SF2Prim (Py.nearest_ratio neg p (Z.to_pos (10 ^ Z.max (- e) 0)%Z))
  | _ => SF2Prim (S754_zero neg)
  end.

(** The exponent part: absent, or [e], a sign and digits. *)
Definition exponent (s : list ascii) : option Z :=
  match s with
  | [] => Some 0
  | c :: s' =>
      if letter "e" c then
        let '(neg, s'') := sign s' in
        let '(ds, rest) := span Re.digit s'' in
        match ds, rest with
        | _ :: _, [] => Some (if neg then - decimal ds else decimal ds)
        | _, _ => None
        end
      else None
  end.

(** [float(s)] for a [str] [s]; [None] stands for [ValueError]. *)
Definition to_float (s : string) : option float :=
  s ← drop_underscores None (strip (list_ascii_of_string s));
  let '(neg, s) := sign s in
  match prefix (list_ascii_of_string "inf") s with
  | Some rest =>
      match rest, prefix (list_ascii_of_string "inity") rest with
      | [], _ | _, Some [] => Some (SF2Prim (S754_infinity neg))
      | _, _ => None
      end
  | None =>
      match prefix (list_ascii_of_string "nan") s with
      | Some [] => Some nan
      | Some _ => None
      | None =>
          let '(int, s) := span Re.digit s in
          let '(frac, s) :=
            match s with
            | c :: s' => if chr "." c then span Re.digit s' else ([], s)
            | [] => ([], s)
            end in
          match int ++ frac with
          | [] => None
          | ds =>
              e ← exponent s;
              Some (scaled neg (decimal ds) (e - Z.of_nat (length frac)))
          end
      end
  end.

End Str.

(** ** Sample input *)

Local Open Scope string_scope.

(** A string in double quotes. *)
Definition in_quotes (s : string) : string :=
  String Re.dquote s ++ String Re.dquote EmptyString.

(** A line of an access log, with the client address and the last field
    (the request time) as given. *)
Definition log_line (remote_addr request_time : string) : string :=
  remote_addr ++ " -  - [29/Jun/2017:03:50:22 +0300] "
    ++ in_quotes "GET /api/v2/banner/25019354 HTTP/1.1" ++ " 200 927 "
    ++ in_quotes "-" ++ " " ++ in_quotes "Lynx/2.8.8dev.9 libwww-FM/2.14" ++ " "
    ++ in_quotes "-" ++ " " ++ in_quotes "1498697422-2190034393-4708-9752759"
    ++ " " ++ in_quotes "dc7161be3" ++ " " ++ request_time
    ++ String (ascii_of_N 10) EmptyString.

Local Close Scope string_scope.

(** The three lines of a small log: two clients, three requests. *)
Definition sample : list string :=
  [log_line "1.1.1.1" "0.125"; log_line "2.2.2.2" "0.5";
   log_line "1.1.1.1" "0.25"].

(** The state in which the summary of [sample] starts. *)
Definition sample_locals : locals :=
  match accumulate Str.to_float sample LOG_LINE_PATTERN 2 with
  | Ok st => st
  | Raise _ => initial
  end.

(** The [Report] of [sample] with at most 100 rows, to 2 decimal places. *)
Definition sample_report : Report :=
  match create_report Str.to_float sample LOG_LINE_PATTERN 100 2 with
  | Ok r => r
  | Raise _ => mkReport [] 0 0
  end.

(** A log whose second line has no request time. *)
Definition sample_dash : list string :=
  [log_line "1.1.1.1" "0.125"; log_line "2.2.2.2" "-";
   log_line "1.1.1.1" "0.25"; log_line "3.3.3.3" "-"].

Definition sample_dash_report : Report :=
  match create_report Str.to_float sample_dash LOG_LINE_PATTERN 100 2 with
  | Ok r => r
  | Raise _ => mkReport [] 0 0
  end.

(** A log of one request, of 0.125 seconds. *)
Definition one_request : list string := [log_line "1.1.1.1" "0.125"].

Definition one_request_report : Report :=
  match create_report Str.to_float one_request LOG_LINE_PATTERN 100 2 with
  | Ok r => r
  | Raise _ => mkReport [] 0 0
  end.

(** ** What the claims speak of *)

(** The sum of [count] over the aggregates. *)
Definition sum_counts (d : report_dict) : Z :=
  foldr (λ kv s, count kv.2 + s) 0 d.

(** The additions that the loop makes: the key and the duration of each
    line, up to the first line on which the [try] raises. *)
Fixpoint additions (py_float : string -> option float) (lines : list string)
  (p : pattern) : list (string * float) :=
  match lines with
  | [] => []
  | line :: lines' =>
      match read_request py_float line p with
      | Ok a => a :: additions py_float lines' p
      | Raise _ => []
      end
  end.

(** The durations added for key [k], in order. *)
Definition times_of (k : string) (adds : list (string * float)) : list float :=
  (filter (λ a, a.1 = k) adds).*2.

(** The running sum of [ts] from [s], rounded after each addition. *)
Fixpoint rounded_sum (accuracy : Z) (s : float) (ts : list float) :
  result float :=
  match ts with
  | [] => Ok s
  | t :: ts' =>
      s' ← Py.round (PrimFloat.add s t) accuracy;
      rounded_sum accuracy s' ts'
  end.

(** What [add_request] does to the value at [url], the other values being
    left as they are; [t] is the new ['time_sum']. *)
Definition added (url : string) (request_time t : float) (v : url_report) :
  url_report :=
  let v :=
    match requests v with
    | None => set_url_requests url [] v
    | Some _ => v
    end in
  append_request request_time (set_time_sum t (set_count (count v + 1) v)).

(** The value at key [k] records the additions [adds] made for [k]. *)
Definition records (accuracy : Z) (adds : list (string * float))
  (k : string) (v : url_report) : Prop :=
  let ts := times_of k adds in
  url v = Some k ∧ requests v = Some ts ∧ ts ≠ [] ∧
  count v = Z.of_nat (length ts) ∧
  rounded_sum accuracy 0%float ts = Ok (time_sum v).

(** The invariant of the loop: the keys are those added, once each, and
    every value records the additions made for its key. *)
Definition consistent (accuracy : Z) (adds : list (string * float))
  (d : report_dict) : Prop :=
  NoDup d.*1 ∧
  (∀ k, k ∈ adds.*1 -> k ∈ d.*1) ∧
  (∀ i k v, d !! i = Some (k, v) -> records accuracy adds k v).

(** The median of a sequence, in the words of the specification: the
    middle value of the sorted sequence, and the average of the two middle
    values when their number is even. *)
Definition median_spec (ts : list float) (m : float) : Prop :=
  let s := Py.sorted id ts in
  let n := length ts in
  (0 < n)%nat ∧
  (Nat.odd n = true -> m = nth (n / 2) s 0%float) ∧
  (Nat.even n = true ->
   m = PrimFloat.div
         (PrimFloat.add (nth (n / 2 - 1) s 0%float) (nth (n / 2) s 0%float)) 2).

(** The items come by key in ascending order: none is followed by an item
    with a smaller key. *)
Definition ascending {A} (key : A -> float) : list A -> Prop :=
  Sorted (λ a b, PrimFloat.ltb (key b) (key a) = false).

(** [x] is a value of [round(y, accuracy)]. *)
Definition round_result (accuracy : Z) (x : float) : Prop :=
  ∃ y, Py.round y accuracy = Ok x.

(** Rounding [x] to the accuracy gives [x]. *)
Definition is_rounded (accuracy : Z) (x : float) : Prop :=
  Py.round x accuracy = Ok x.

(** ** Where [sorted] and the pattern are those of the code

    [sorted] is CPython's on keys without a NaN, which [float] gives for
    the text [nan] and a sum for an infinity and its opposite; the pattern
    is that of [re] on lines of characters below U+0080. *)

(** No item of [ts] is a NaN. *)
Definition no_nan (ts : list float) : bool :=
  forallb (λ t, negb (PrimFloat.is_nan t)) ts.

(** No ['time_sum'] of [d] is a NaN. *)
Definition no_nan_sum (d : report_dict) : bool :=
  no_nan ((λ kv, time_sum kv.2) <$> d).

(** The items come by key in ascending order: every item is at most each
    of the items that follow it. *)
Definition in_order {A} (key : A -> float) : list A -> Prop :=
  StronglySorted (λ a b, PrimFloat.leb (key a) (key b) = true).

(** The characters of [s] are below U+0080. *)
Definition is_ascii (s : string) : bool :=
  forallb (λ c, (Re.code c <? 128)%N) (list_ascii_of_string s).

(** ** What the further properties speak of *)

(** An item that reads characters: not an end of a group. *)
Definition char_item (it : Re.item) : bool :=
  match it with
  | Re.Class _ | Re.Repeat _ _ _ _ => true
  | Re.Open _ | Re.Close _ => false
  end.

(** The names of the groups of [LOG_LINE_PATTERN]. *)
Definition group_names : list string :=
  ["remote_addr"; "remote_user"; "http_x_real_ip"; "time_local"; "request";
   "status"; "body_bytes_sent"; "http_referer"; "http_user_agent";
   "http_x_forwarded_for"; "http_X_REQUEST_ID"; "http_X_RB_USER";
   "request_time"]%string.

(** ** The last log: [_fetch_date_from_file_name] and [get_last_log]

    File names are [str]s of characters below U+0080, compared as Python
    compares them, by code points.  The builtins whose results depend on
    the system, on the locale or on a format language ([os.listdir],
    [strptime], [strftime], [str.format]) are parameters; what they raise
    is of a class [exc], of which [value_error] tells the subclasses of
    [ValueError]. *)

(** What a call gives: the value returned, or the exception raised. *)
Inductive outcome (E A : Type) : Type :=
| Returns (a : A)
| Raises (e : E).

Arguments Returns {E A} a.
Arguments Raises {E A} e.

#[global] Instance outcome_ret {E} : MRet (outcome E) := fun _ a => Returns a.

#[global] Instance outcome_bind {E} : MBind (outcome E) := fun _ _ k r =>
  match r with
  | Returns a => k a
  | Raises e => Raises e
  end.

Module Text.

(** [s.endswith(suffix)] *)
Definition endswith (s suffix : string) : bool :=
  let s := list_ascii_of_string s in
  let suffix := list_ascii_of_string suffix in
  bool_decide (drop (length s - length suffix) s = suffix).

(** [s.startswith(prefix)] *)
Definition startswith (s prefix : string) : bool :=
  let s := list_ascii_of_string s in
  let prefix := list_ascii_of_string prefix in
  bool_decide (take (length prefix) s = prefix).

(** [s.rfind(c)] for a character [c]: the last index of [c] in [s], or -1;
    [i] is the index of the head of [s] and [found] the last index found
    before it. *)
Fixpoint rfind_from (c : ascii) (s : list ascii) (i found : Z) : Z :=
  match s with
  | [] => found
  | ch :: s' => rfind_from c s' (i + 1) (if decide (ch = c) then i else found)
  end.

Definition rfind (c : ascii) (s : list ascii) : Z := rfind_from c s 0 (-1).

(** [a > b] on two [str]s. *)
Definition gt (a b : string) : bool := String.ltb b a.

End Text.

(** [os.path] on a POSIX system. *)
Module Posixpath.

(** [splitext(p)]: the extension starts at the last dot of the last
    component, unless that component has nothing but dots before it. *)
Definition splitext (p : string) : string * string :=
  let s := list_ascii_of_string p in
  let sepIndex := Text.rfind "/" s in
  let dotIndex := Text.rfind "." s in
  let filename := drop (Z.to_nat (sepIndex + 1)) (take (Z.to_nat dotIndex) s) in
  if (sepIndex <? dotIndex)
     && existsb (λ ch, negb (bool_decide (ch = "."%char))) filename
  then (string_of_list_ascii (take (Z.to_nat dotIndex) s),
        string_of_list_ascii (drop (Z.to_nat dotIndex) s))
  else (p, EmptyString).

(** [join(a, b)] *)
Definition join (a b : string) : string :=
  if Text.startswith b "/" then b
  else if bool_decide (a = EmptyString) || Text.endswith a "/" then a ++ b
  else a ++ "/" ++ b.

End Posixpath.

(** [LogEntry = namedtuple('LogEntry', ('log_name', 'log_date'))], for the
    entries that [get_last_log] keeps: those whose [log_date] is not
    [None]. *)
Record LogEntry (datetime : Type) : Type := mkLogEntry {
  log_name : string;
  log_date : datetime
}.

Arguments mkLogEntry {datetime} log_name log_date.
Arguments log_name {datetime} l.
Arguments log_date {datetime} l.

(** The system and the builtins that [main] and the functions that it
    calls rely on. *)
Record world (datetime exc : Type) : Type := World {
  (** [isinstance(e, ValueError)] *)
  value_error : exc -> bool;
  (** [template.format(date=s)] *)
  format_date : string -> string -> outcome exc string;
  (** [datetime.datetime.strptime(s, format)] *)
  strptime : string -> string -> outcome exc datetime;
  (** [d.strftime(format)] *)
  strftime : datetime -> string -> outcome exc string;
  (** [d1 == d2] and [d1 > d2] on two dates of [strptime] *)
  date_eq : datetime -> datetime -> bool;
  date_gt : datetime -> datetime -> bool;
  (** [os.listdir(path)] *)
  listdir : string -> outcome exc (list string);
  (** [os.path.exists(path)] *)
  path_exists : string -> bool;
  (** The decoded lines that [read_file(path)] yields, for a file that can
      be read. *)
  read_file : string -> list string;
  (** [int(s)] and [float(s)] on a [str]: [None] stands for
      [ValueError]. *)
  int_of_str : string -> option Z;
  float_of_str : string -> option float
}.

Arguments value_error {datetime exc} w e.
Arguments format_date {datetime exc} w template s.
Arguments strptime {datetime exc} w s format.
Arguments strftime {datetime exc} w d format.
Arguments date_eq {datetime exc} w d1 d2.
Arguments date_gt {datetime exc} w d1 d2.
Arguments listdir {datetime exc} w path.
Arguments path_exists {datetime exc} w path.
Arguments read_file {datetime exc} w path.
Arguments int_of_str {datetime exc} w s.
Arguments float_of_str {datetime exc} w s.

Section LastLog.
Context {datetime exc : Type} (w : world datetime exc).

(** [except ValueError: return], around a body whose value is not
    [None]. *)
Definition except_ValueError {A} (body : outcome exc A) :
  outcome exc (option A) :=
  match body with
  | Returns a => Returns (Some a)
  | Raises e => if value_error w e then Returns None else Raises e
  end.

(** [_fetch_date_from_file_name(file_name, template, date_format)] *)
Definition _fetch_date_from_file_name
  (file_name template date_format : string) : outcome exc (option datetime) :=
  except_ValueError
    (let file_name :=
       if negb (Text.endswith file_name ".gz") then file_name
       else (Posixpath.splitext file_name).1 in
     format ← format_date w template date_format;
     strptime w file_name format).

(** The entries of [logs_in_directory] that pass the filter, in the order
    of the names: the names for which a date is fetched. *)
Fixpoint logs_in_directory (names : list string)
  (log_template date_format : string) :
  outcome exc (list (LogEntry datetime)) :=
  match names with
  | [] => Returns []
  | log_name :: names' =>
      log_date ← _fetch_date_from_file_name log_name log_template date_format;
      entries ← logs_in_directory names' log_template date_format;
      Returns
        match log_date with
        | Some d => mkLogEntry log_name d :: entries
        | None => entries
        end
  end.

(** [a > b] on two [LogEntry]s, as on tuples: the first items that differ
    decide. *)
Definition entry_gt (a b : LogEntry datetime) : bool :=
  if negb (bool_decide (log_name a = log_name b)) then
    Text.gt (log_name a) (log_name b)
  else if negb (date_eq w (log_date a) (log_date b)) then
    date_gt w (log_date a) (log_date b)
  else false.

(** [max(entries)]: the first maximal entry; [None] stands for the
    [ValueError] of an empty sequence. *)
Definition max_entry (entries : list (LogEntry datetime)) :
  option (LogEntry datetime) :=
  match entries with
  | [] => None
  | x :: entries' =>
      Some (fold_left (λ m item, if entry_gt item m then item else m)
              entries' x)
  end.

(** [get_last_log(logs_dir, log_template, date_format)]; the messages
    logged are not modelled. *)
Definition get_last_log (logs_dir log_template date_format : string) :
  outcome exc (option (LogEntry datetime)) :=
  match
    except_ValueError
      (names ← listdir w logs_dir;
       logs_in_directory names log_template date_format)
  with
  | Returns (Some entries) => Returns (max_entry entries)
  | Returns None => Returns None
  | Raises e => Raises e
  end.

End LastLog.

(** ** [main] *)

(** A value of the [config] dictionary: the [int] that [CONFIG] gives for
    a numeric option, or the [str] read from a configuration file. *)
Inductive value : Type :=
| VInt (n : Z)
| VStr (s : string).

(** The [config] dictionary of [main], with the keys of [CONFIG] that
    [main] reads: the directories, templates and formats are [str]s. *)
Record config : Type := Config {
  LOGS_DIR : string;
  LOG_NAME_TEMPLATE : string;
  LOG_DATE_FORMAT : string;
  REPORTS_DIR : string;
  REPORT_NAME_TEMPLATE : string;
  REPORT_DATE_FORMAT : string;
  REPORT_TEMPLATE : string;
  REPORT_SIZE : value;
  REPORT_ACCURACY : value;
  ERRORS_PERCENT_LIMIT : value
}.

(** [CONFIG] *)
Definition CONFIG : config :=
  Config "./logs" "nginx-access-ui.log-{date}" "%Y%m%d" "./reports"
    "report-{date}.html" "%Y.%m.%d" "./report.html" (VInt 100) (VInt 2)
    (VInt 0).

(** What a call of [main] that returns has done. *)
Inductive effect : Type :=
(** nothing: no log was found, line 212 *)
| NoLog
(** nothing: the report of the last log exists, line 222 *)
| AlreadyReported
(** the message of line 230, with its three arguments, was logged *)
| ErrorsLogged (total_errors errors_percent : Z) (file : string)
(** [render_report(rows, report_path, template_path)] was called *)
| Rendered (rows : list url_report) (report_path template_path : string).

(** [round(x)] on a [float]: the nearest [int], ties to even. *)
Definition round_int (x : float) : result Z :=
  match Prim2SF x with
  | S754_zero _ => Ok 0
  | S754_finite s m e =>
      let n :=
        Py.round_half_even (Zpos m * 2 ^ Z.max e 0) (2 ^ Z.max (- e) 0) in
      Ok (if s then - n else n)
  | S754_infinity _ => Raise OverflowError
  | S754_nan => Raise ValueError
  end.

(** [errors_percent > limit > 0]: an [int] and a [str] are not ordered. *)
Definition exceeds (errors_percent : Z) (limit : value) : result bool :=
  match limit with
  | VInt l => Ok ((l <? errors_percent) && (0 <? l))
  | VStr _ => Raise TypeError
  end.

Section Main.
Context {datetime exc : Type} (w : world datetime exc).

(** The exceptions of [main]: those of the modelled code, and those of the
    builtins of [w]. *)
Definition raised : Type := exn + exc.

Definition of_result {A} (r : result A) : outcome raised A :=
  match r with
  | Ok a => Returns a
  | Raise e => Raises (inl e)
  end.

Definition of_builtin {A} (r : outcome exc A) : outcome raised A :=
  match r with
  | Returns a => Returns a
  | Raises e => Raises (inr e)
  end.

(** [int(v)] *)
Definition to_int (v : value) : result Z :=
  match v with
  | VInt n => Ok n
  | VStr s =>
      match int_of_str w s with
      | Some n => Ok n
      | None => Raise ValueError
      end
  end.

(** [main(config)]; the messages logged at the level [INFO] are not
    modelled. *)
Definition main (config : config) : outcome raised effect :=
  log_for_analyze ←
    of_builtin
      (get_last_log w (LOGS_DIR config) (LOG_NAME_TEMPLATE config)
         (LOG_DATE_FORMAT config));
  match log_for_analyze with
  | None => Returns NoLog
  | Some log_for_analyze =>
      date ←
        of_builtin
          (strftime w (log_date log_for_analyze) (REPORT_DATE_FORMAT config));
      report_name ←
        of_builtin (format_date w (REPORT_NAME_TEMPLATE config) date);
      if path_exists w (Posixpath.join (REPORTS_DIR config) report_name) then
        Returns AlreadyReported
      else
        let file_path :=
          Posixpath.join (LOGS_DIR config) (log_name log_for_analyze) in
        report_size ← of_result (to_int (REPORT_SIZE config));
        accuracy ← of_result (to_int (REPORT_ACCURACY config));
        the_report ←
          of_result
            (create_report (float_of_str w) (read_file w file_path)
               LOG_LINE_PATTERN report_size accuracy);
        q ←
          of_result
            (Py.int_truediv (100 * total_errors the_report)
               (total_requests the_report));
        errors_percent ← of_result (round_int q);
        too_many ←
          of_result (exceeds errors_percent (ERRORS_PERCENT_LIMIT config));
        if too_many : bool then
          Returns
            (ErrorsLogged (total_errors the_report) errors_percent
               (log_name log_for_analyze))
        else
          Returns
            (Rendered (report the_report)
               (Posixpath.join (REPORTS_DIR config) report_name)
               (REPORT_TEMPLATE config))
  end.

End Main.

(** ** A world for the examples

    The dates are kept as the eight digits that write them; the formats
    known are those that end with [%Y%m%d] after a plain text, and the
    templates those with one field [{date}] in a plain text. *)

(** [template.format(date=s)] *)
Fixpoint replace_date (template s : string) : string :=
  match template with
  | EmptyString => EmptyString
  | String c template' =>
      if String.prefix "{date}" template then
        s ++ string_of_list_ascii (drop 5 (list_ascii_of_string template'))
      else String c (replace_date template' s)
  end.

(** [datetime.datetime.strptime(s, format)] *)
Definition sample_strptime (s format : string) : outcome unit string :=
  let s := list_ascii_of_string s in
  let format := list_ascii_of_string format in
  let n := (length format - 6)%nat in
  if bool_decide (drop n format = list_ascii_of_string "%Y%m%d")
     && bool_decide (take n s = take n format)
     && bool_decide (length (drop n s) = 8%nat)
     && forallb Re.digit (drop n s)
  then Returns (string_of_list_ascii (drop n s))
  else Raises ().

(** A directory [logs_dir] of the files [names], each with the lines
    [lines]; [existing] are the paths of the reports that exist.  Every
    exception is a [ValueError], and no [str] is an [int]. *)
Definition sample_world (names lines existing : list string) :
  world string unit :=
  World string unit
    (λ _, true)
    (λ template s, Returns (replace_date template s))
    sample_strptime
    (λ d _, Returns d)
    String.eqb
    Text.gt
    (λ _, Returns names)
    (λ path, bool_decide (path ∈ existing))
    (λ _, lines)
    (λ _, None)
    Str.to_float.

(** [CONFIG] with another [ERRORS_PERCENT_LIMIT]. *)
Definition with_limit (limit : value) : config :=
  Config (LOGS_DIR CONFIG) (LOG_NAME_TEMPLATE CONFIG) (LOG_DATE_FORMAT CONFIG)
    (REPORTS_DIR CONFIG) (REPORT_NAME_TEMPLATE CONFIG)
    (REPORT_DATE_FORMAT CONFIG) (REPORT_TEMPLATE CONFIG) (REPORT_SIZE CONFIG)
    (REPORT_ACCURACY CONFIG) limit.

(** The log of 30 June 2017. *)
Definition last_log : LogEntry string :=
  mkLogEntry "nginx-access-ui.log-20170630" "20170630".

(** A system in which the directory of the logs is missing: [os.listdir]
    raises [FileNotFoundError].  An exception is given by whether it is a
    [ValueError]. *)
Definition missing_logs_dir : world string bool :=
  World string bool
    (λ e, e)
    (λ template s, Returns (replace_date template s))
    (λ _ _, Raises true)
    (λ d _, Returns d)
    String.eqb
    Text.gt
    (λ _, Raises false)
    (λ _, false)
    (λ _, [])
    (λ _, None)
    Str.to_float.

(** * Properties *)

(** ** The store *)

Section Store.
Implicit Types (d : report_dict) (i j : nat) (f g : url_report -> url_report).

Lemma value_at_lookup d i k v : d !! i = Some (k, v) -> value_at d i = v.
Proof.
  intros H. unfold value_at. by rewrite (list_lookup_total_correct _ _ _ H).
Qed.

Lemma update_value_length i f d : length (update_value i f d) = length d.
Proof. apply length_alter. Qed.

Lemma update_value_keys i f d : (update_value i f d).*1 = d.*1.
Proof.
  unfold update_value. revert i. induction d as [|[k v] d IH]; intros [|i];
    try done. cbn. f_equal. apply IH.
Qed.

Lemma update_value_lookup i f d k v :
  d !! i = Some (k, v) -> update_value i f d !! i = Some (k, f v).
Proof. intros H. unfold update_value. by rewrite list_lookup_alter_eq, H. Qed.

Lemma update_value_lookup_ne i j f d :
  i ≠ j -> update_value i f d !! j = d !! j.
Proof. intros H. unfold update_value. by rewrite list_lookup_alter_ne. Qed.

Lemma update_value_at i f d :
  (i < length d)%nat -> value_at (update_value i f d) i = f (value_at d i).
Proof.
  intros H. destruct (lookup_lt_is_Some_2 d i H) as [[k v] Hv].
  rewrite (value_at_lookup _ _ _ _ (update_value_lookup _ f _ _ _ Hv)).
  by rewrite (value_at_lookup _ _ _ _ Hv).
Qed.

Lemma update_value_at_ne i j f d :
  i ≠ j -> value_at (update_value i f d) j = value_at d j.
Proof.
  intros H. unfold value_at, update_value.
  by rewrite list_lookup_total_alter_ne.
Qed.

Lemma update_value_compose i f g d :
  update_value i f (update_value i g d) = update_value i (f ∘ g) d.
Proof.
  unfold update_value. by rewrite list_alter_alter_eq.
Qed.

Lemma update_value_ge i f d : (length d <= i)%nat -> update_value i f d = d.
Proof.
  intros H. apply list_eq. intros j. unfold update_value.
  destruct (decide (i = j)) as [<-|Hne].
  - rewrite list_lookup_alter_eq.
    by rewrite (lookup_ge_None_2 d i H).
  - by rewrite list_lookup_alter_ne.
Qed.

Lemma index_of_Some k d i :
  index_of k d = Some i -> ∃ v, d !! i = Some (k, v).
Proof.
  revert i. induction d as [|[k' v'] d IH]; intros i; simpl; [done|].
  case_decide as Hk.
  - intros [= <-]. subst. by exists v'.
  - destruct (index_of k d) as [i'|]; simpl; [|done].
    intros [= <-]. by apply IH.
Qed.

Lemma index_of_None k d : index_of k d = None -> k ∉ d.*1.
Proof.
  induction d as [|[k' v'] d IH]; simpl; [intros _; apply not_elem_of_nil|].
  case_decide as Hk; [done|].
  destruct (index_of k d); simpl; [done|].
  intros _. apply not_elem_of_cons. split; [done|by apply IH].
Qed.

End Store.

(** ** The accumulator *)

Lemma rounded_sum_snoc accuracy s ts t :
  rounded_sum accuracy s (ts ++ [t]) =
  (s' ← rounded_sum accuracy s ts; Py.round (PrimFloat.add s' t) accuracy).
Proof.
  revert s. induction ts as [|t' ts IH]; intros s; simpl.
  - by destruct (Py.round _ _).
  - destruct (Py.round _ _); simpl; [apply IH|done].
Qed.

Lemma sum_counts_app d1 d2 :
  sum_counts (d1 ++ d2) = sum_counts d1 + sum_counts d2.
Proof. induction d1 as [|kv d1 IH]; simpl; [done|]. rewrite IH. lia. Qed.

Lemma sum_counts_update i f d k v :
  d !! i = Some (k, v) ->
  sum_counts (update_value i f d) = sum_counts d - count v + count (f v).
Proof.
  revert i. induction d as [|kv d IH]; intros [|i]; simpl; try done.
  - intros [= ->]. simpl. lia.
  - intros H. specialize (IH _ H). unfold update_value in *. cbn.
    rewrite IH. lia.
Qed.

Lemma update_value_ext i f g d :
  (∀ k v, d !! i = Some (k, v) -> f v = g v) ->
  update_value i f d = update_value i g d.
Proof.
  intros H. unfold update_value. apply list_alter_ext; [|done].
  intros [k v] Hkv. simpl. by rewrite (H _ _ Hkv).
Qed.

Lemma update_value_id i f d :
  (∀ k v, d !! i = Some (k, v) -> f v = v) -> update_value i f d = d.
Proof.
  intros H. rewrite (update_value_ext i f id d) by done.
  apply list_alter_id. by intros [k v].
Qed.

Lemma getitem_lookup k d0 i d :
  getitem k d0 = (i, d) -> ∃ v, d !! i = Some (k, v).
Proof.
  unfold getitem. destruct (index_of k d0) as [i'|] eqn:Hi; intros [= <- <-].
  - by apply index_of_Some.
  - exists empty_url_report. apply list_lookup_middle. done.
Qed.

Section Accumulator.
Variable py_float : string -> option float.

Lemma add_request_inv url request_time accuracy st st' :
  add_request url request_time accuracy st = Ok st' ->
  ∃ i d v t,
    getitem url (l_report st) = (i, d) ∧ d !! i = Some (url, v) ∧
    Py.round (PrimFloat.add (time_sum v) request_time) accuracy = Ok t ∧
    l_report st' = update_value i (added url request_time t) d ∧
    l_total_requests st' = l_total_requests st ∧
    l_total_errors st' = l_total_errors st.
Proof.
  unfold add_request.
  destruct (getitem url (l_report st)) as [i d] eqn:Hg.
  destruct (getitem_lookup _ _ _ _ Hg) as [v Hv].
  rewrite (value_at_lookup _ _ _ _ Hv).
  set (init := λ v : url_report,
         match requests v with
         | None => set_url_requests url [] v
         | Some _ => v
         end).
  assert (match requests v with
          | Some _ => d
          | None => update_value i (set_url_requests url []) d
          end = update_value i init d) as ->.
  { destruct (requests v) eqn:Hr.
    - symmetry. apply update_value_id. intros k w Hw.
      assert (w = v) as -> by congruence. subst init. simpl. by rewrite Hr.
    - apply update_value_ext. intros k w Hw.
      assert (w = v) as -> by congruence. subst init. simpl. by rewrite Hr. }
  assert (i < length d)%nat as Hi by (eapply lookup_lt_Some; eauto).
  rewrite !update_value_at by (by rewrite ?update_value_length).
  rewrite (value_at_lookup _ _ _ _ Hv).
  assert (time_sum (set_count (count (init v) + 1) (init v)) = time_sum v)
    as ->.
  { subst init. simpl. by destruct (requests v). }
  destruct (Py.round (PrimFloat.add (time_sum v) request_time) accuracy)
    as [t|] eqn:Ht; simpl; [|done].
  destruct (Py.round (PrimFloat.add (l_total_requests_time st) request_time)
              accuracy) as [total|]; simpl; [|done].
  intros [= <-]. exists i, d, v, t. simpl.
  rewrite !update_value_compose. done.
Qed.

Lemma added_count url request_time t v :
  count (added url request_time t v) = count v + 1.
Proof. unfold added. by destruct (requests v). Qed.

Lemma getitem_sum_counts k d0 i d :
  getitem k d0 = (i, d) -> sum_counts d = sum_counts d0.
Proof.
  unfold getitem. destruct (index_of k d0); intros [= <- <-]; [done|].
  rewrite sum_counts_app. simpl. lia.
Qed.

Lemma add_request_counters url request_time accuracy st st' :
  add_request url request_time accuracy st = Ok st' ->
  sum_counts (l_report st') = sum_counts (l_report st) + 1 ∧
  l_total_requests st' = l_total_requests st ∧
  l_total_errors st' = l_total_errors st.
Proof.
  intros H.
  destruct (add_request_inv _ _ _ _ _ H)
    as (i & d & v & t & Hg & Hv & _ & -> & ? & ?).
  split_and!; [|done..].
  rewrite (sum_counts_update _ _ _ _ _ Hv), added_count.
  rewrite (getitem_sum_counts _ _ _ _ Hg). lia.
Qed.

(** The counters along the loop: the lines read are the errors and the
    additions, and the loop stops at the first error. *)
Lemma read_lines_counters lines p accuracy st st' :
  read_lines py_float lines p accuracy st = Ok st' ->
  l_total_requests st' - l_total_errors st' - sum_counts (l_report st') =
    l_total_requests st - l_total_errors st - sum_counts (l_report st) ∧
  l_total_errors st <= l_total_errors st' <= l_total_errors st + 1.
Proof.
  revert st. induction lines as [|line lines IH]; intros st; simpl.
  - intros [= <-]. lia.
  - destruct (read_request py_float line p) as [[url request_time]|e].
    + destruct (add_request _ _ _ _) as [st1|] eqn:Hadd; simpl; [|done].
      intros H. apply IH in H.
      apply add_request_counters in Hadd. simpl in Hadd. lia.
    + destruct (caught e); [|done]. intros [= <-]. simpl. lia.
Qed.

Lemma times_of_snoc k adds t :
  times_of k (adds ++ [(k, t)]) = times_of k adds ++ [t].
Proof.
  unfold times_of. rewrite filter_app, fmap_app. f_equal.
  rewrite filter_cons_True by done. done.
Qed.

Lemma times_of_snoc_ne k k' adds t :
  k ≠ k' -> times_of k (adds ++ [(k', t)]) = times_of k adds.
Proof.
  intros H. unfold times_of. rewrite filter_app, fmap_app.
  rewrite filter_cons_False by (simpl; congruence).
  by rewrite filter_nil, app_nil_r.
Qed.

Lemma times_of_absent k adds : k ∉ adds.*1 -> times_of k adds = [].
Proof.
  unfold times_of. induction adds as [|[k' t] adds IH]; [done|].
  rewrite fmap_cons, not_elem_of_cons. simpl. intros [Hk Hadds].
  rewrite filter_cons_False by (simpl; congruence). by apply IH.
Qed.

Lemma consistent_initial accuracy : consistent accuracy [] [].
Proof.
  split_and!; [constructor|by intros k ?%elem_of_nil|by intros i k v ?].
Qed.

Lemma added_records accuracy adds url request_time t v :
  Py.round (PrimFloat.add (time_sum v) request_time) accuracy = Ok t ->
  records accuracy adds url v
    ∨ (v = empty_url_report ∧ times_of url adds = []) ->
  records accuracy (adds ++ [(url, request_time)]) url
    (added url request_time t v).
Proof.
  intros Ht [(Hu & Hr & Hne & Hc & Hs)|[-> Hts]];
    unfold records, added; rewrite times_of_snoc.
  - rewrite Hr. simpl. rewrite Hu, Hr. simpl. split_and!; try done.
    + by destruct (times_of url adds).
    + rewrite length_app. simpl. lia.
    + rewrite rounded_sum_snoc, Hs. simpl. done.
  - rewrite Hts. simpl. split_and!; try done.
    simpl in Ht. by rewrite Ht.
Qed.

Lemma add_request_consistent accuracy adds url request_time st st' :
  consistent accuracy adds (l_report st) ->
  add_request url request_time accuracy st = Ok st' ->
  consistent accuracy (adds ++ [(url, request_time)]) (l_report st').
Proof.
  intros (Hnd & Hkeys & Hrec) H.
  destruct (add_request_inv _ _ _ _ _ H)
    as (i & d & v & t & Hg & Hv & Ht & -> & _ & _).
  assert (NoDup d.*1 ∧ (∀ k, k ∈ adds.*1 -> k ∈ d.*1) ∧
          (∀ j k w,
             d !! j = Some (k, w) -> j ≠ i -> records accuracy adds k w) ∧
          (records accuracy adds url v
             ∨ (v = empty_url_report ∧ times_of url adds = [])))
    as (Hnd' & Hkeys' & Hrec' & Hv').
  { unfold getitem in Hg. destruct (index_of url (l_report st)) eqn:Hi.
    - injection Hg as <- <-. split_and!; eauto.
    - injection Hg as <- <-. apply index_of_None in Hi.
      rewrite fmap_app. simpl. split_and!.
      + apply NoDup_app. split_and!; [done| |apply NoDup_singleton].
        intros k Hk Hk'%list_elem_of_singleton. by subst.
      + intros k Hk. apply elem_of_app. left. by apply Hkeys.
      + intros j k w Hj Hne. apply (Hrec j).
        rewrite lookup_app_l in Hj; [done|].
        apply lookup_lt_Some in Hj. rewrite length_app in Hj. simpl in Hj. lia.
      + right. rewrite list_lookup_middle in Hv by done.
        injection Hv as <-. split; [done|].
        apply times_of_absent. intros Hin. apply Hi. by apply Hkeys. }
  split_and!.
  - by rewrite update_value_keys.
  - intros k. rewrite update_value_keys, fmap_app, elem_of_app. simpl.
    intros [Hk|Hk%list_elem_of_singleton]; [by apply Hkeys'|subst k].
    apply list_elem_of_lookup. exists i. by rewrite list_lookup_fmap, Hv.
  - intros j k w Hj. destruct (decide (i = j)) as [<-|Hne].
    + rewrite (update_value_lookup _ _ _ _ _ Hv) in Hj.
      injection Hj as <- <-. by apply added_records.
    + rewrite update_value_lookup_ne in Hj by done.
      assert (k ≠ url) as Hk.
      { intros ->. apply Hne. eapply NoDup_lookup; [exact Hnd'| |].
        - by rewrite list_lookup_fmap, Hv.
        - by rewrite list_lookup_fmap, Hj. }
      unfold records. rewrite times_of_snoc_ne by done.
      apply (Hrec' j); [done|congruence].
Qed.

Lemma read_lines_consistent lines p accuracy adds st st' :
  consistent accuracy adds (l_report st) ->
  read_lines py_float lines p accuracy st = Ok st' ->
  consistent accuracy (adds ++ additions py_float lines p) (l_report st').
Proof.
  revert adds st. induction lines as [|line lines IH]; intros adds st Hc; simpl.
  - intros [= <-]. by rewrite app_nil_r.
  - destruct (read_request py_float line p) as [[url request_time]|e].
    + destruct (add_request _ _ _ _) as [st1|] eqn:Hadd; simpl; [|done].
      intros H. rewrite cons_middle, app_assoc.
      apply (IH _ st1); [|done].
      eapply add_request_consistent; [|exact Hadd]. done.
    + destruct (caught e); [|done]. intros [= <-]. simpl.
      by rewrite app_nil_r.
Qed.
End Accumulator.

(** ** Sorting and slicing *)

Section Sorting.
Context {A : Type}.
Implicit Types (f g : A -> float) (l : list A).

Lemma insert_sorted_ext f g x l :
  (∀ y, f y = g y) -> Py.insert_sorted f x l = Py.insert_sorted g x l.
Proof.
  intros H. induction l as [|y l IH]; simpl; [done|].
  rewrite !H, IH. done.
Qed.

Lemma sorted_ext f g l : (∀ y, f y = g y) -> Py.sorted f l = Py.sorted g l.
Proof.
  intros H. unfold Py.sorted. induction l as [|x l IH]; simpl; [done|].
  rewrite IH. by apply insert_sorted_ext.
Qed.

Lemma insert_sorted_perm f x l : Py.insert_sorted f x l ≡ₚ x :: l.
Proof.
  induction l as [|y l IH]; simpl; [done|].
  destruct (PrimFloat.ltb _ _); [|done].
  rewrite IH. apply Permutation_swap.
Qed.

Lemma sorted_perm f l : Py.sorted f l ≡ₚ l.
Proof.
  unfold Py.sorted. induction l as [|x l IH]; simpl; [done|].
  by rewrite insert_sorted_perm, IH.
Qed.

Lemma slice_to_take l n : ∃ m, Py.slice_to l n = take m l.
Proof. unfold Py.slice_to. destruct (0 <=? n); eauto. Qed.

Lemma slice_to_nonneg l n :
  0 <= n -> Py.slice_to l n = take (Z.to_nat n) l.
Proof. intros H. unfold Py.slice_to. by destruct (Z.leb_spec 0 n); [|lia]. Qed.
End Sorting.

(** ** The references selected *)

Lemma top_reports_take d size :
  ∃ m, top_reports d size =
       take m (Py.sorted (λ i, time_sum (value_at d i)) (seq 0 (length d))).
Proof. apply slice_to_take. Qed.

Lemma top_reports_lt d size i :
  i ∈ top_reports d size -> (i < length d)%nat.
Proof.
  destruct (top_reports_take d size) as [m ->].
  intros (j & Hj & _)%elem_of_take. apply list_elem_of_lookup_2 in Hj.
  rewrite sorted_perm in Hj. apply elem_of_seq in Hj. lia.
Qed.

Lemma top_reports_NoDup d size : NoDup (top_reports d size).
Proof.
  destruct (top_reports_take d size) as [m ->].
  eapply sublist_NoDup; [|apply sublist_take].
  rewrite sorted_perm. apply NoDup_seq.
Qed.

Lemma top_reports_ext d d' size :
  length d = length d' ->
  (∀ i, time_sum (value_at d i) = time_sum (value_at d' i)) ->
  top_reports d size = top_reports d' size.
Proof.
  intros Hlen H. unfold top_reports. rewrite Hlen.
  by rewrite (sorted_ext _ _ _ H).
Qed.

(** With a limit that is not negative, as many references as the limit
    allows are selected. *)
Lemma top_reports_length d size :
  0 <= size ->
  length (top_reports d size) = Z.to_nat (Z.min size (Z.of_nat (length d))).
Proof.
  intros H. unfold top_reports.
  assert (length (Py.sorted (λ i, time_sum (value_at d i)) (seq 0 (length d)))
          = length d) as Hlen.
  { by rewrite sorted_perm, length_seq. }
  destruct (Z.ltb_spec size (Z.of_nat (length d))).
  - rewrite slice_to_nonneg, length_take by done. lia.
  - rewrite slice_to_nonneg, length_take by lia. lia.
Qed.

(** ** The loop of [summarize_report] *)

Lemma derive_pop v ts total_requests total_requests_time accuracy :
  derive (pop_requests v) ts total_requests total_requests_time accuracy =
  derive v ts total_requests total_requests_time accuracy.
Proof. done. Qed.

(** What the loop keeps, whether it ends or raises: the keys, every
    ['count'] and ['time_sum'], and the absence of ['requests']. *)
Lemma summarize_loop_keeps refs total_requests total_requests_time accuracy
  d r d' :
  summarize_loop refs total_requests total_requests_time accuracy d = (r, d') ->
  d'.*1 = d.*1 ∧
  ∀ j, time_sum (value_at d' j) = time_sum (value_at d j) ∧
       count (value_at d' j) = count (value_at d j) ∧
       (requests (value_at d j) = None -> requests (value_at d' j) = None).
Proof.
  revert d. induction refs as [|i refs IH]; intros d; simpl.
  - by intros [= _ <-].
  - destruct (requests (value_at d i)) as [ts|] eqn:Hts; [|by intros [= _ <-]].
    assert (∀ f j,
      (∀ v, time_sum (f v) = time_sum v ∧ count (f v) = count v ∧
            (requests v = None -> requests (f v) = None)) ->
      time_sum (value_at (update_value i f d) j) = time_sum (value_at d j) ∧
      count (value_at (update_value i f d) j) = count (value_at d j) ∧
      (requests (value_at d j) = None ->
       requests (value_at (update_value i f d) j) = None)) as Hupd.
    { intros f j Hf. destruct (decide (i = j)) as [<-|Hne].
      - destruct (decide (i < length d)%nat).
        + rewrite update_value_at by done. apply Hf.
        + rewrite update_value_ge by lia. done.
      - by rewrite update_value_at_ne. }
    destruct (derive _ _ _ _ _) as [s|e].
    + intros H. apply IH in H as [Hk H].
      rewrite Hk, update_value_compose, update_value_keys. split; [done|].
      intros j. destruct (H j) as (-> & -> & Hr).
      rewrite update_value_compose in Hr |- *.
      destruct (Hupd (update_derived s ∘ pop_requests) j) as (-> & -> & Hr');
        [done|]. eauto.
    + intros [= _ <-]. rewrite update_value_keys. split; [done|].
      intros j. by apply Hupd.
Qed.

Lemma summarize_loop_length refs total_requests total_requests_time accuracy
  d r d' :
  summarize_loop refs total_requests total_requests_time accuracy d = (r, d') ->
  length d' = length d.
Proof.
  intros [H _]%summarize_loop_keeps.
  by rewrite <-(length_fmap fst d'), H, length_fmap.
Qed.

(** When the loop ends, each of the values referred to has been updated
    once, from what it was before the loop, and the others are as before. *)
Lemma summarize_loop_ok refs total_requests total_requests_time accuracy d d' :
  NoDup refs -> (∀ i, i ∈ refs -> (i < length d)%nat) ->
  summarize_loop refs total_requests total_requests_time accuracy d
    = (Ok (), d') ->
  (∀ i, i ∈ refs -> ∃ ts s,
     requests (value_at d i) = Some ts ∧
     derive (value_at d i) ts total_requests total_requests_time accuracy
       = Ok s ∧
     value_at d' i = update_derived s (pop_requests (value_at d i))) ∧
  (∀ j, j ∉ refs -> value_at d' j = value_at d j).
Proof.
  revert d. induction refs as [|i refs IH]; intros d Hnd Hlt; simpl.
  - intros [= <-]. split; [by intros i ?%elem_of_nil|done].
  - destruct (requests (value_at d i)) as [ts|] eqn:Hts; [|done].
    rewrite update_value_at by (apply Hlt; left).
    rewrite derive_pop.
    destruct (derive _ _ _ _ _) as [s|e] eqn:Hs; [|done].
    rewrite update_value_compose. intros H.
    apply NoDup_cons in Hnd as [Hi Hnd].
    apply IH in H as [Hin Hout]; [|done|].
    2:{ intros j Hj. rewrite update_value_length. apply Hlt. by right. }
    split.
    + intros j [->|Hj]%elem_of_cons.
      * exists ts, s. split_and!; [done..|].
        rewrite (Hout _ Hi), update_value_at by (apply Hlt; left). done.
      * assert (i ≠ j) as Hne by (by intros ->).
        destruct (Hin _ Hj) as (ts' & s' & H1 & H2 & H3).
        rewrite update_value_at_ne in H1, H2, H3 by done. eauto.
    + intros j [Hne Hj]%not_elem_of_cons.
      rewrite (Hout _ Hj), update_value_at_ne by done. done.
Qed.

(** ** [create_report] *)

Lemma create_report_inv py_float lines p report_size accuracy r :
  create_report py_float lines p report_size accuracy = Ok r ->
  ∃ st d',
    accumulate py_float lines p accuracy = Ok st ∧
    summarize_report (l_report st) (l_total_requests st)
      (l_total_requests_time st) report_size accuracy = (Ok (report r), d') ∧
    total_requests r = l_total_requests st ∧
    total_errors r = l_total_errors st.
Proof.
  unfold create_report.
  destruct (accumulate _ _ _ _) as [st|]; simpl; [|done].
  destruct (summarize_report _ _ _ _ _) as [[rows|] d'] eqn:Hs; simpl; [|done].
  intros [= <-]. by exists st, d'.
Qed.

Lemma read_lines_sum_counts py_float lines p accuracy st st' :
  read_lines py_float lines p accuracy st = Ok st' ->
  sum_counts (l_report st') =
  sum_counts (l_report st) + Z.of_nat (length (additions py_float lines p)).
Proof.
  revert st. induction lines as [|line lines IH]; intros st; simpl.
  - intros [= <-]. lia.
  - destruct (read_request py_float line p) as [[url request_time]|e].
    + destruct (add_request _ _ _ _) as [st1|] eqn:Hadd; simpl; [|done].
      intros H. apply IH in H.
      apply add_request_counters in Hadd. simpl in Hadd. lia.
    + destruct (caught e); [|done]. intros [= <-]. simpl. lia.
Qed.

Lemma sample_report_eq :
  create_report Str.to_float sample LOG_LINE_PATTERN 100 2 = Ok sample_report.
Proof. vm_compute. reflexivity. Qed.

Lemma sample_dash_report_eq :
  create_report Str.to_float sample_dash LOG_LINE_PATTERN 100 2
    = Ok sample_dash_report.
Proof. vm_compute. reflexivity. Qed.

(** ** The end of the loop *)

(** When the [try] raises [ValueError] or [KeyError] on a line, the line
    is counted as read and as an error, [report] is left as it is, and the
    lines that follow are not read. *)
Lemma read_lines_error py_float line lines p accuracy st e :
  read_request py_float line p = Raise e -> caught e = true ->
  read_lines py_float (line :: lines) p accuracy st
    = Ok (Locals (l_total_requests st + 1) (l_total_requests_time st)
            (l_total_errors st + 1) (l_report st)).
Proof. intros H He. simpl. by rewrite H, He. Qed.

Lemma read_lines_break py_float line lines p accuracy st e :
  read_request py_float line p = Raise e -> caught e = true ->
  read_lines py_float (line :: lines) p accuracy st
    = read_lines py_float [line] p accuracy st.
Proof. intros H He. by rewrite !(read_lines_error _ _ _ _ _ _ _ H He). Qed.

Lemma read_lines_app py_float lines1 lines2 p accuracy st :
  length (additions py_float lines1 p) = length lines1 ->
  read_lines py_float (lines1 ++ lines2) p accuracy st =
  st' ← read_lines py_float lines1 p accuracy st;
  read_lines py_float lines2 p accuracy st'.
Proof.
  revert st. induction lines1 as [|line lines1 IH]; intros st; simpl; [done|].
  destruct (read_request py_float line p) as [[url request_time]|e];
    simpl; [|done].
  intros [= H]. destruct (add_request _ _ _ _) as [st1|]; simpl; [|done].
  by apply IH.
Qed.

(** A line whose request time is not a number ends the run: what follows
    it in the file does not change the [Report]. *)
Lemma create_report_break py_float lines1 line lines2 p report_size accuracy
  request s :
  length (additions py_float lines1 p) = length lines1 ->
  p line = Some request -> is_Some (request !! "remote_addr"%string) ->
  request !! "request_time"%string = Some s -> py_float s = None ->
  create_report py_float (lines1 ++ line :: lines2) p report_size accuracy =
  create_report py_float (lines1 ++ [line]) p report_size accuracy.
Proof.
  intros Hgood Hm [url Hurl] Ht Hf.
  assert (read_request py_float line p = Raise ValueError) as Hr.
  { unfold read_request, parse_line, group. rewrite Hm, Hurl, Ht. simpl.
    by rewrite Hf. }
  unfold create_report, accumulate. rewrite !read_lines_app by done.
  destruct (read_lines py_float lines1 p accuracy initial) as [st|]; [|done].
  simpl. by rewrite Hr.
Qed.

(** A line that the pattern does not match ends the run with [TypeError],
    which [create_report] does not catch. *)
Lemma create_report_no_match py_float lines1 line lines2 p report_size
  accuracy st :
  read_lines py_float lines1 p accuracy initial = Ok st ->
  length (additions py_float lines1 p) = length lines1 ->
  p line = None ->
  create_report py_float (lines1 ++ line :: lines2) p report_size accuracy
    = Raise TypeError.
Proof.
  intros Hst Hgood Hm.
  unfold create_report, accumulate. rewrite read_lines_app, Hst by done.
  simpl. unfold read_request, parse_line. by rewrite Hm.
Qed.

(** ** [summarize_report] *)

Lemma summarize_report_inv d total_requests total_requests_time size accuracy
  rows d' :
  summarize_report d total_requests total_requests_time size accuracy
    = (Ok rows, d') ->
  summarize_loop (top_reports d size) total_requests total_requests_time
    accuracy d = (Ok (), d') ∧
  rows = value_at d' <$> top_reports d size.
Proof.
  unfold summarize_report.
  destruct (summarize_loop _ _ _ _ _) as [[[]|e] d1]; [|done].
  by intros [= <- <-].
Qed.

(** The row of each reference selected: the value as it was, without
    ['requests'], with the derived values. *)
Lemma summarize_report_row d total_requests total_requests_time size accuracy
  rows d' j i :
  summarize_report d total_requests total_requests_time size accuracy
    = (Ok rows, d') ->
  top_reports d size !! j = Some i ->
  ∃ ts s,
    requests (value_at d i) = Some ts ∧
    derive (value_at d i) ts total_requests total_requests_time accuracy
      = Ok s ∧
    rows !! j = Some (update_derived s (pop_requests (value_at d i))).
Proof.
  intros [Hloop ->]%summarize_report_inv Hj.
  apply summarize_loop_ok in Hloop as [Hin _];
    [|apply top_reports_NoDup|apply top_reports_lt].
  destruct (Hin i) as (ts & s & Hts & Hs & Hv);
    [by eapply list_elem_of_lookup_2|].
  exists ts, s. split_and!; [done..|].
  by rewrite list_lookup_fmap, Hj, <-Hv.
Qed.

Lemma bind_Ok {A B} (r : result A) (k : A -> result B) b :
  r ≫= k = Ok b -> ∃ a, r = Ok a ∧ k a = Ok b.
Proof. destruct r as [a|e]; [|done]. simpl. eauto. Qed.

Lemma derive_inv v ts total_requests total_requests_time accuracy s :
  derive v ts total_requests total_requests_time accuracy = Ok s ->
  (q ← Py.int_truediv (100 * count v) total_requests; Py.round q accuracy)
    = Ok (d_count_perc s) ∧
  (q ← Py.float_truediv (PrimFloat.mul 100 (time_sum v)) total_requests_time;
   Py.round q accuracy) = Ok (d_time_perc s) ∧
  (q ← Py.float_div_int (time_sum v) (count v); Py.round q accuracy)
    = Ok (d_time_avg s) ∧
  Py.max ts = Ok (d_time_max s) ∧
  Py.median ts = Ok (d_time_med s).
Proof.
  unfold derive.
  intros H.
  repeat
    (apply bind_Ok in H as (? & Hx & H); rewrite Hx; clear Hx;
     cbn [mbind result_bind]).
  by injection H as <-.
Qed.

Lemma float_div_int_2 x : Py.float_div_int x 2 = Ok (PrimFloat.div x 2).
Proof. done. Qed.

Lemma median_is_median_spec ts m : Py.median ts = Ok m -> median_spec ts m.
Proof.
  unfold Py.median, median_spec.
  rewrite (Permutation_length (sorted_perm id ts)).
  destruct (Nat.eqb_spec (length ts) 0) as [|Hn]; [done|].
  destruct (Nat.eqb_spec (length ts mod 2) 1) as [Hodd|Heven].
  - intros [= <-]. split_and!; [lia|done|].
    intros [k Hk]%Nat.even_spec.
    by rewrite Hk, Nat.mul_comm, Nat.Div0.mod_mul in Hodd.
  - rewrite float_div_int_2. intros [= <-]. split_and!; [lia| |done].
    intros [k Hk]%Nat.odd_spec. destruct Heven.
    replace (length ts) with (1 + k * 2)%nat by lia.
    by rewrite Nat.Div0.mod_add.
Qed.

(** ** The order of the rows *)

Lemma SFcompare_Lt_asym x y :
  SFcompare x y = Some Lt -> SFcompare y x = Some Gt.
Proof.
  destruct x as [sx|sx| |sx mx ex], y as [sy|sy| |sy my ey]; simpl;
    try done; try (by destruct sx); try (by destruct sy);
    try (by destruct sx, sy).
  destruct sx, sy; try done.
  - rewrite (Z.compare_antisym ex ey).
    destruct (ex ?= ey) eqn:He; simpl; try done.
    change (Pos.compare_cont Eq my mx) with (my ?= mx)%positive.
    change (Pos.compare_cont Eq mx my) with (mx ?= my)%positive.
    rewrite (Pos.compare_antisym mx my).
    by destruct (mx ?= my)%positive.
  - rewrite (Z.compare_antisym ex ey).
    destruct (ex ?= ey) eqn:He; simpl; try done.
    change (Pos.compare_cont Eq my mx) with (my ?= mx)%positive.
    change (Pos.compare_cont Eq mx my) with (mx ?= my)%positive.
    rewrite (Pos.compare_antisym mx my).
    by destruct (mx ?= my)%positive.
Qed.

(** [x < y] excludes [y < x]. *)
Lemma ltb_asym x y : PrimFloat.ltb x y = true -> PrimFloat.ltb y x = false.
Proof.
  rewrite !ltb_spec. unfold SFltb.
  destruct (SFcompare (Prim2SF x) (Prim2SF y)) as [[]|] eqn:H; try done.
  by rewrite (SFcompare_Lt_asym _ _ H).
Qed.

Section Ascending.
Context {A B : Type}.
Implicit Types (key : A -> float) (l : list A).

Lemma insert_sorted_HdRel key a x l :
  PrimFloat.ltb (key x) (key a) = false ->
  HdRel (λ a b, PrimFloat.ltb (key b) (key a) = false) a l ->
  HdRel (λ a b, PrimFloat.ltb (key b) (key a) = false) a
    (Py.insert_sorted key x l).
Proof.
  intros Hx Hl. destruct l as [|y l]; simpl; [by constructor|].
  destruct (PrimFloat.ltb (key y) (key x)); constructor; [|done].
  by inversion Hl.
Qed.

Lemma insert_sorted_ascending key x l :
  ascending key l -> ascending key (Py.insert_sorted key x l).
Proof.
  unfold ascending. induction 1 as [|y l Hl IH Hy]; simpl.
  - repeat constructor.
  - destruct (PrimFloat.ltb (key y) (key x)) eqn:Hlt.
    + constructor; [done|].
      apply insert_sorted_HdRel; [by apply ltb_asym|done].
    + constructor; [by constructor|by constructor].
Qed.

Lemma sorted_ascending key l : ascending key (Py.sorted key l).
Proof.
  unfold Py.sorted. induction l as [|x l IH]; simpl; [constructor|].
  by apply insert_sorted_ascending.
Qed.

Lemma ascending_take key l n : ascending key l -> ascending key (take n l).
Proof.
  unfold ascending. intros H. revert n.
  induction H as [|x l Hl IH Hx]; intros [|n]; simpl; try constructor.
  - apply IH.
  - destruct Hx as [|y l Hy]; destruct n; simpl; by constructor.
Qed.

Lemma ascending_fmap (f : B -> A) key (l : list B) :
  ascending (key ∘ f) l -> ascending key (f <$> l).
Proof.
  unfold ascending. induction 1 as [|x l Hl IH Hx]; simpl; constructor.
  - done.
  - destruct Hx; simpl; by constructor.
Qed.

Lemma ascending_ext key key' l :
  (∀ x, key x = key' x) -> ascending key l -> ascending key' l.
Proof.
  intros H. unfold ascending. induction 1 as [|x l Hl IH Hx]; constructor.
  - done.
  - destruct Hx; constructor. by rewrite <-!H.
Qed.
End Ascending.

Lemma top_reports_ascending d size :
  ascending (λ i, time_sum (value_at d i)) (top_reports d size).
Proof.
  destruct (top_reports_take d size) as [m ->].
  apply ascending_take, sorted_ascending.
Qed.

(** The rows of a summary come by [time_sum] in ascending order. *)
Lemma summarize_report_ascending d total_requests total_requests_time size
  accuracy rows d' :
  summarize_report d total_requests total_requests_time size accuracy
    = (Ok rows, d') ->
  ascending time_sum rows.
Proof.
  intros [Hloop ->]%summarize_report_inv.
  apply ascending_fmap.
  apply (ascending_ext (λ i, time_sum (value_at d i))).
  - intros i. simpl. symmetry.
    by apply (summarize_loop_keeps _ _ _ _ _ _ _ Hloop).
  - apply top_reports_ascending.
Qed.

(** Two aggregates with the same [time_sum] stay in the order in which
    their keys were met first. *)
Example ties_keep_insertion_order :
  ∃ r,
    create_report Str.to_float
      [log_line "2.2.2.2" "1.0"; log_line "1.1.1.1" "0.5";
       log_line "1.1.1.1" "0.5"]
      LOG_LINE_PATTERN 100 2 = Ok r ∧
    (λ v, (url v, time_sum v)) <$> report r
      = [(Some "2.2.2.2"%string, 1%float); (Some "1.1.1.1"%string, 1%float)].
Proof. eexists. vm_compute. done. Qed.

(** A negative limit drops rows from the end, as a slice does. *)
Example negative_limit :
  ∃ r,
    create_report Str.to_float
      [log_line "3.3.3.3" "4.0"; log_line "2.2.2.2" "2.0";
       log_line "1.1.1.1" "1.0"]
      LOG_LINE_PATTERN (-1) 2 = Ok r ∧
    (λ v, (url v, time_sum v)) <$> report r
      = [(Some "1.1.1.1"%string, 1%float); (Some "2.2.2.2"%string, 2%float)].
Proof. eexists. vm_compute. done. Qed.

(** ** Totals that are zero *)

Lemma float_truediv_0 x y :
  PrimFloat.eqb y 0%float = true ->
  Py.float_truediv x y = Raise ZeroDivisionError.
Proof. intros H. unfold Py.float_truediv. by rewrite H. Qed.

Lemma finite_or_overflow_Raise x e :
  Py.finite_or_overflow x = Raise e -> e = OverflowError.
Proof. destruct x; simpl; congruence. Qed.

Lemma int_truediv_Raise a b e :
  Py.int_truediv a b = Raise e -> e = ZeroDivisionError ∨ e = OverflowError.
Proof.
  unfold Py.int_truediv. destruct b; [intros [= <-]; by left|..];
    (destruct (Z.abs a); simpl; [done| |done];
     intros ->%finite_or_overflow_Raise; by right).
Qed.

Lemma round_Raise x ndigits e :
  Py.round x ndigits = Raise e -> e = OverflowError.
Proof.
  unfold Py.round. destruct (Prim2SF x); try done.
  destruct (323 <? ndigits); [done|]. destruct (ndigits <? -308); [done|].
  destruct (_ * _); try done. apply finite_or_overflow_Raise.
Qed.

(** With a total that is zero, [derive] raises: at the first division when
    [total_requests] is zero, at the second one at the latest otherwise. *)
Lemma derive_zero_total v ts total_requests total_requests_time accuracy :
  total_requests = 0 ∨ PrimFloat.eqb total_requests_time 0%float = true ->
  ∃ e,
    derive v ts total_requests total_requests_time accuracy = Raise e ∧
    (e = ZeroDivisionError ∨ e = OverflowError) ∧
    (total_requests = 0 -> e = ZeroDivisionError).
Proof.
  intros H. unfold derive.
  destruct (decide (total_requests = 0)) as [->|Hne].
  { exists ZeroDivisionError. split_and!; [done|by left|done]. }
  destruct H as [?|H]; [done|].
  destruct (Py.int_truediv _ _) as [q|e] eqn:Hq; simpl.
  - destruct (Py.round q accuracy) as [cp|e] eqn:Hcp; simpl.
    + rewrite (float_truediv_0 _ _ H). simpl.
      exists ZeroDivisionError. split_and!; [done|by left|done].
    + exists e. apply round_Raise in Hcp as ->.
      split_and!; [done|by right|done].
  - exists e. split_and!; [done|by eapply int_truediv_Raise|done].
Qed.

(** A log whose requests all take no time, and an empty log. *)
Example all_durations_zero :
  create_report Str.to_float
    [log_line "1.1.1.1" "0.000"; log_line "2.2.2.2" "0.000"]
    LOG_LINE_PATTERN 100 2 = Raise ZeroDivisionError.
Proof. vm_compute. reflexivity. Qed.

Example empty_log :
  create_report Str.to_float [] LOG_LINE_PATTERN 100 2 = Ok (mkReport [] 0 0).
Proof. vm_compute. reflexivity. Qed.

(** ** The summary made twice *)

Lemma summarize_report_again d total_requests total_requests_time size
  accuracy rows d' :
  summarize_report d total_requests total_requests_time size accuracy
    = (Ok rows, d') ->
  top_reports d' size = top_reports d size ∧
  ∀ i, i ∈ top_reports d size -> requests (value_at d' i) = None.
Proof.
  intros [Hloop ->]%summarize_report_inv. split.
  - apply top_reports_ext.
    + by eapply summarize_loop_length.
    + intros i. by apply (summarize_loop_keeps _ _ _ _ _ _ _ Hloop).
  - apply summarize_loop_ok in Hloop as [Hin _];
      [|apply top_reports_NoDup|apply top_reports_lt].
    intros i Hi. destruct (Hin i Hi) as (ts & s & _ & _ & ->). done.
Qed.

(** ** Rounded values *)

Lemma rounded_sum_round_result accuracy s ts x :
  ts ≠ [] -> rounded_sum accuracy s ts = Ok x -> round_result accuracy x.
Proof.
  revert s. induction ts as [|t ts IH]; intros s Hne; [done|]. simpl.
  intros (s' & Hs' & H)%bind_Ok. destruct ts as [|t' ts].
  - injection H as <-. by eexists.
  - by eapply IH.
Qed.

Lemma bind_round_result {A} (r : result A) k accuracy x :
  (q ← r; Py.round (k q) accuracy) = Ok x -> round_result accuracy x.
Proof. intros (q & _ & H)%bind_Ok. by eexists. Qed.

Lemma max_elem_of ts m : Py.max ts = Ok m -> m ∈ ts.
Proof.
  destruct ts as [|x ts]; simpl; [done|]. intros [= <-].
  assert (∀ l y, fold_left
                   (λ m item, if PrimFloat.ltb m item then item else m) l y
                 ∈ y :: l) as H.
  { induction l as [|z l IH]; intros y; simpl; [by left|].
    destruct (PrimFloat.ltb y z).
    - right. apply IH.
    - pose proof (IH y) as [Hy|Hl]%elem_of_cons.
      + rewrite Hy. by left.
      + by do 2 right. }
  apply H.
Qed.

Lemma summarize_report_elem d total_requests total_requests_time size accuracy
  rows d' row :
  summarize_report d total_requests total_requests_time size accuracy
    = (Ok rows, d') ->
  row ∈ rows ->
  ∃ i ts s,
    i ∈ top_reports d size ∧ requests (value_at d i) = Some ts ∧
    derive (value_at d i) ts total_requests total_requests_time accuracy
      = Ok s ∧
    row = update_derived s (pop_requests (value_at d i)).
Proof.
  intros Hs [j Hj]%list_elem_of_lookup_1.
  destruct (summarize_report_inv _ _ _ _ _ _ _ Hs) as [_ Hrows].
  assert (∃ i, top_reports d size !! j = Some i) as [i Hi].
  { rewrite Hrows, list_lookup_fmap in Hj.
    destruct (top_reports d size !! j); [by eexists|done]. }
  destruct (summarize_report_row _ _ _ _ _ _ _ _ _ Hs Hi)
    as (ts & s & Hts & Hd & Hrow).
  exists i, ts, s. split_and!; [by eapply list_elem_of_lookup_2|done..|].
  congruence.
Qed.

Lemma one_request_report_eq :
  create_report Str.to_float one_request LOG_LINE_PATTERN 100 2
    = Ok one_request_report.
Proof. vm_compute. reflexivity. Qed.

(** ** The exceptions that leave [create_report] *)

Lemma read_request_Raise py_float line p e :
  read_request py_float line p = Raise e ->
  e = TypeError ∨ caught e = true.
Proof.
  unfold read_request, parse_line, group.
  destruct (p line) as [request|]; [|intros [= <-]; by left].
  destruct (request !! "remote_addr"%string); simpl;
    [|intros [= <-]; by right].
  destruct (request !! "request_time"%string) as [t|]; simpl;
    [|intros [= <-]; by right].
  destruct (py_float t); [done|intros [= <-]; by right].
Qed.

Lemma add_request_Raise url request_time accuracy st e :
  add_request url request_time accuracy st = Raise e -> e = OverflowError.
Proof.
  unfold add_request. destruct (getitem url (l_report st)) as [i d].
  intros H.
  destruct (Py.round (PrimFloat.add (time_sum _) request_time) accuracy)
    as [t|e'] eqn:Ht; simpl in H.
  - destruct (Py.round _ accuracy) as [total|e'] eqn:Htotal in H; simpl in H;
      [done|].
    simplify_eq. by eapply round_Raise.
  - simplify_eq. by eapply round_Raise.
Qed.

Lemma read_lines_Raise py_float lines p accuracy st e :
  read_lines py_float lines p accuracy st = Raise e ->
  e = TypeError ∨ e = OverflowError.
Proof.
  revert st. induction lines as [|line lines IH]; intros st; simpl; [done|].
  destruct (read_request py_float line p) as [[url request_time]|e'] eqn:Hr.
  - destruct (add_request _ _ _ _) as [st1|e'] eqn:Hadd; simpl.
    + apply IH.
    + intros [= <-]. right. by eapply add_request_Raise.
  - destruct (read_request_Raise _ _ _ _ Hr) as [He|He].
    + subst e'. simpl. intros ?. simplify_eq. by left.
    + by rewrite He.
Qed.

Lemma float_truediv_Raise x y e :
  Py.float_truediv x y = Raise e -> e = ZeroDivisionError.
Proof.
  unfold Py.float_truediv. destruct (PrimFloat.eqb y 0); [|done].
  by intros [= <-].
Qed.

Lemma float_div_int_Raise x n e :
  Py.float_div_int x n = Raise e -> e = ZeroDivisionError ∨ e = OverflowError.
Proof.
  unfold Py.float_div_int, Py.float_of_int.
  destruct (Py.finite_or_overflow _) as [y|e'] eqn:Hy; simpl.
  - intros ->%float_truediv_Raise. by left.
  - intros ?. simplify_eq. right. by eapply finite_or_overflow_Raise.
Qed.

Lemma max_Ok ts : ts ≠ [] -> ∃ m, Py.max ts = Ok m.
Proof. destruct ts; [done|]. simpl. eauto. Qed.

Lemma median_Ok ts : ts ≠ [] -> ∃ m, Py.median ts = Ok m.
Proof.
  intros Hne. unfold Py.median.
  rewrite (Permutation_length (sorted_perm id ts)).
  destruct (Nat.eqb_spec (length ts) 0) as [H0|_].
  { by destruct ts. }
  destruct (length ts mod 2 =? 1)%nat; [eauto|].
  rewrite float_div_int_2. eauto.
Qed.

(** On durations that are not empty, [derive] raises nothing but
    [ZeroDivisionError] and [OverflowError]. *)
Lemma derive_Raise v ts total_requests total_requests_time accuracy e :
  ts ≠ [] ->
  derive v ts total_requests total_requests_time accuracy = Raise e ->
  e = ZeroDivisionError ∨ e = OverflowError.
Proof.
  intros Hne. unfold derive.
  destruct (max_Ok ts Hne) as [tmax ->], (median_Ok ts Hne) as [tmed ->].
  destruct (Py.int_truediv _ _) as [q1|e1] eqn:H1; simpl;
    [|intros ?; simplify_eq; by eapply int_truediv_Raise].
  destruct (Py.round q1 accuracy) as [cp|e2] eqn:H2; simpl;
    [|intros ?; simplify_eq; right; by eapply round_Raise].
  destruct (Py.float_truediv _ _) as [q2|e3] eqn:H3; simpl;
    [|intros ?; simplify_eq; left; by eapply float_truediv_Raise].
  destruct (Py.round q2 accuracy) as [tp|e4] eqn:H4; simpl;
    [|intros ?; simplify_eq; right; by eapply round_Raise].
  destruct (Py.float_div_int _ _) as [q3|e5] eqn:H5; simpl;
    [|intros ?; simplify_eq; by eapply float_div_int_Raise].
  destruct (Py.round q3 accuracy) as [ta|e6] eqn:H6; simpl;
    [done|intros ?; simplify_eq; right; by eapply round_Raise].
Qed.

Lemma summarize_loop_Raise refs total_requests total_requests_time accuracy
  d e d' :
  NoDup refs ->
  (∀ i, i ∈ refs ->
     (i < length d)%nat ∧
     ∃ ts, ts ≠ [] ∧ requests (value_at d i) = Some ts) ->
  summarize_loop refs total_requests total_requests_time accuracy d
    = (Raise e, d') ->
  e = ZeroDivisionError ∨ e = OverflowError.
Proof.
  revert d. induction refs as [|i refs IH]; intros d Hnd Hrefs; simpl;
    [done|].
  destruct (Hrefs i) as (Hi & ts & Hne & ->); [by left|].
  apply NoDup_cons in Hnd as [Hnotin Hnd].
  destruct (derive _ _ _ _ _) as [s|e'] eqn:Hd.
  - apply IH; [done|]. intros j Hj.
    assert (i ≠ j) as Hij by (by intros ->).
    rewrite !update_value_length, !update_value_at_ne by done.
    apply Hrefs. by right.
  - intros ?. simplify_eq. by eapply derive_Raise.
Qed.

(** [create_report] returns a [Report] or raises [TypeError] (a line that
    does not match), [ZeroDivisionError] (a total that is zero) or
    [OverflowError]: no [KeyError], [ValueError] or [StatisticsError]
    leaves it. *)
Lemma create_report_Raise py_float lines p report_size accuracy e :
  create_report py_float lines p report_size accuracy = Raise e ->
  e = TypeError ∨ e = ZeroDivisionError ∨ e = OverflowError.
Proof.
  unfold create_report.
  destruct (accumulate py_float lines p accuracy) as [st|e'] eqn:Hacc; simpl.
  - unfold summarize_report.
    destruct (summarize_loop _ _ _ _ _) as [[[]|e'] d'] eqn:Hloop; simpl;
      [done|].
    intros ?. simplify_eq. right.
    eapply summarize_loop_Raise; [apply top_reports_NoDup| |exact Hloop].
    intros i Hi%top_reports_lt. split; [done|].
    apply lookup_lt_is_Some_2 in Hi as [[k v] Hv].
    apply (read_lines_consistent py_float lines p accuracy [] initial st
             (consistent_initial _)) in Hacc as (_ & _ & Hrec).
    destruct (Hrec _ _ _ Hv) as (_ & Hreq & Hne & _).
    rewrite (value_at_lookup _ _ _ _ Hv). eauto.
  - intros ?. simplify_eq.
    destruct (read_lines_Raise _ _ _ _ _ _ Hacc) as [->| ->]; eauto.
Qed.

(** ** The order of numbers that are not NaN *)

Lemma SFcompare_antisym x y :
  SFcompare x y = CompOpp <$> SFcompare y x.
Proof.
  destruct x as [sx|sx| |sx mx ex], y as [sy|sy| |sy my ey]; simpl;
    try done; try (by destruct sx); try (by destruct sy);
    try (by destruct sx, sy).
  destruct sx, sy; try done; simpl.
  - rewrite (Z.compare_antisym ex ey).
    destruct (ex ?= ey) eqn:He; simpl; try done.
    change (Pos.compare_cont Eq my mx) with (my ?= mx)%positive.
    change (Pos.compare_cont Eq mx my) with (mx ?= my)%positive.
    rewrite (Pos.compare_antisym mx my).
    by destruct (mx ?= my)%positive.
  - rewrite (Z.compare_antisym ex ey).
    destruct (ex ?= ey) eqn:He; simpl; try done.
    change (Pos.compare_cont Eq my mx) with (my ?= mx)%positive.
    change (Pos.compare_cont Eq mx my) with (mx ?= my)%positive.
    rewrite (Pos.compare_antisym mx my).
    by destruct (mx ?= my)%positive.
Qed.

Lemma is_nan_Prim2SF x :
  PrimFloat.is_nan x = false -> Prim2SF x ≠ S754_nan.
Proof.
  unfold PrimFloat.is_nan. intros H%negb_false_iff.
  rewrite FloatAxioms.eqb_spec in H. intros Hx. by rewrite Hx in H.
Qed.

Lemma is_nan_SFcompare x y :
  PrimFloat.is_nan x = false -> PrimFloat.is_nan y = false ->
  is_Some (SFcompare (Prim2SF x) (Prim2SF y)).
Proof.
  intros Hx%is_nan_Prim2SF Hy%is_nan_Prim2SF.
  destruct (Prim2SF x) as [| | |], (Prim2SF y) as [| | |]; simpl; done.
Qed.

(** Of two numbers that are not NaN, the first is at most the second when
    the second is not below the first. *)
Lemma not_ltb_leb x y :
  PrimFloat.is_nan x = false -> PrimFloat.is_nan y = false ->
  PrimFloat.ltb y x = false -> PrimFloat.leb x y = true.
Proof.
  intros Hx Hy. rewrite FloatAxioms.ltb_spec, FloatAxioms.leb_spec. unfold SFltb, SFleb.
  destruct (is_nan_SFcompare y x Hy Hx) as [c Hc].
  rewrite (SFcompare_antisym (Prim2SF x)), Hc. simpl. by destruct c.
Qed.

Lemma leb_trans x y z :
  PrimFloat.leb x y = true -> PrimFloat.leb y z = true ->
  PrimFloat.leb x z = true.
Proof.
  rewrite !FloatAxioms.leb_spec. unfold SFleb.
  destruct (Prim2SF x) as [sx|sx| |sx mx ex],
    (Prim2SF y) as [sy|sy| |sy my ey],
    (Prim2SF z) as [sz|sz| |sz mz ez]; simpl; try done;
    try (by destruct sx); try (by destruct sy); try (by destruct sz);
    try (by destruct sx, sy); try (by destruct sy, sz);
    try (by destruct sx, sz); try (by destruct sx, sy, sz).
  destruct sx, sy, sz; try done;
    destruct (Z.compare_spec ex ey), (Z.compare_spec ey ez),
      (Z.compare_spec ex ez); try done; try lia;
    change (Pos.compare_cont Eq mx my) with (mx ?= my)%positive;
    change (Pos.compare_cont Eq my mz) with (my ?= mz)%positive;
    change (Pos.compare_cont Eq mx mz) with (mx ?= mz)%positive;
    destruct (Pos.compare_spec mx my), (Pos.compare_spec my mz),
      (Pos.compare_spec mx mz); simpl; try done; try lia.
Qed.

Lemma no_nan_elem_of ts t :
  no_nan ts = true -> t ∈ ts -> PrimFloat.is_nan t = false.
Proof.
  unfold no_nan. rewrite forallb_forall. intros H Ht%list_elem_of_In.
  by apply negb_true_iff, H.
Qed.

Lemma no_nan_sum_lookup d i k v :
  no_nan_sum d = true -> d !! i = Some (k, v) ->
  PrimFloat.is_nan (time_sum v) = false.
Proof.
  intros H Hi. apply (no_nan_elem_of _ _ H), list_elem_of_fmap.
  exists (k, v). split; [done|]. by eapply list_elem_of_lookup_2.
Qed.

Lemma ascending_in_order {A} (key : A -> float) l :
  Forall (λ a, PrimFloat.is_nan (key a) = false) l ->
  ascending key l -> in_order key l.
Proof.
  intros Hnan Hasc. apply Sorted_StronglySorted.
  { intros a b c. apply leb_trans. }
  unfold ascending in Hasc. induction Hasc as [|a l Hl IH Ha].
  { constructor. }
  apply Forall_cons in Hnan as [Ha' Hnan].
  constructor; [by apply IH|].
  destruct Ha as [|b l Hb]; constructor.
  apply Forall_cons in Hnan as [Hb' _]. by apply not_ltb_leb.
Qed.

(** Without a NaN, the order of [sorted] is the ascending order. *)
Lemma sorted_in_order ts :
  no_nan ts = true -> in_order id (Py.sorted id ts).
Proof.
  intros Hnan. apply ascending_in_order; [|apply sorted_ascending].
  apply Forall_forall. intros t Ht. rewrite sorted_perm in Ht.
  by eapply no_nan_elem_of.
Qed.

Lemma no_nan_times_of k adds :
  no_nan adds.*2 = true -> no_nan (times_of k adds) = true.
Proof.
  unfold no_nan, times_of. rewrite !forallb_forall.
  intros H t Ht%list_elem_of_In. apply H, list_elem_of_In.
  apply list_elem_of_fmap in Ht as (a & -> & Ha%list_elem_of_filter).
  apply list_elem_of_fmap. exists a. by destruct Ha.
Qed.

(** * The claims *)

(** [C1] With two aggregates and a limit of 1, the row returned is the one
    with the smaller [time_sum]; with a limit of 2 the rows come by
    [time_sum] in ascending order. *)
Theorem summary_keeps_smallest :
  (∃ r,
     create_report Str.to_float
       [log_line "1.1.1.1" "1.0"; log_line "2.2.2.2" "2.0"]
       LOG_LINE_PATTERN 1 2 = Ok r ∧
     (λ v, (url v, time_sum v)) <$> report r
       = [(Some "1.1.1.1"%string, 1%float)]) ∧
  (∃ r,
     create_report Str.to_float
       [log_line "2.2.2.2" "2.0"; log_line "1.1.1.1" "1.0"]
       LOG_LINE_PATTERN 2 2 = Ok r ∧
     (λ v, (url v, time_sum v)) <$> report r
       = [(Some "1.1.1.1"%string, 1%float); (Some "2.2.2.2"%string, 2%float)]).
Proof. split; eexists; vm_compute; done. Qed.

(** [C2] A line with [-] for its request time is counted as one error and
    ends the run: of the three lines only two are read, and the request of
    the third line is in no aggregate. *)
Theorem non_numeric_duration_stops :
  ∃ r,
    create_report Str.to_float
      [log_line "1.1.1.1" "0.125"; log_line "2.2.2.2" "-";
       log_line "1.1.1.1" "0.25"]
      LOG_LINE_PATTERN 100 2 = Ok r ∧
    total_requests r = 2 ∧ total_errors r = 1 ∧
    url <$> report r = [Some "1.1.1.1"%string] ∧ count <$> report r = [1].
Proof. eexists. vm_compute. done. Qed.

(** [C3] A line that does not match the pattern makes the run raise
    [TypeError]: no [Report] is returned and the error is not counted. *)
Theorem no_match_is_fatal :
  create_report Str.to_float
    [log_line "1.1.1.1" "0.125"; "not an access log line"%string;
     log_line "1.1.1.1" "0.25"]
    LOG_LINE_PATTERN 100 2 = Raise TypeError.
Proof. vm_compute. reflexivity. Qed.

(** The summary of an empty [report] with both totals at zero is the empty
    sequence: a summary is returned and nothing is raised. *)
Lemma summary_with_zero_total_counterexample :
  summarize_report [] 0 0%float 100 2 = (Ok [], []) ∧
  ¬ ∃ e, (summarize_report [] 0 0%float 100 2).1 = Raise e.
Proof. split; [done|]. by intros [e He]. Qed.

(** [C4] With [total_requests] or the total time equal to zero, the summary
    of a selection that is empty is the empty sequence, and [report] is
    left as it is; when an aggregate is selected no row is returned: the
    division by zero is made and raises [ZeroDivisionError] (or the
    quotient before it raises [OverflowError]). *)
Theorem summary_with_zero_total d total_requests total_requests_time size
  accuracy :
  total_requests = 0 ∨ PrimFloat.eqb total_requests_time 0%float = true ->
  (top_reports d size = [] ->
   summarize_report d total_requests total_requests_time size accuracy
     = (Ok [], d)) ∧
  (∀ i refs times,
     top_reports d size = i :: refs ->
     requests (value_at d i) = Some times ->
     ∃ e,
       (summarize_report d total_requests total_requests_time size accuracy).1
         = Raise e ∧
       (e = ZeroDivisionError ∨ e = OverflowError) ∧
       (total_requests = 0 -> e = ZeroDivisionError)).
Proof.
  intros H. split.
  - intros Hrefs. unfold summarize_report. by rewrite Hrefs.
  - intros i refs ts Hrefs Hts. unfold summarize_report. rewrite Hrefs.
    simpl. rewrite Hts.
    destruct (derive_zero_total
                (value_at (update_value i pop_requests d) i) ts
                total_requests total_requests_time accuracy H)
      as (e & -> & He). by exists e.
Qed.

Lemma summary_with_zero_total_witness :
  let d := l_report sample_locals in
  (3 = 0 ∨ PrimFloat.eqb 0%float 0%float = true) ∧
  (top_reports d 100 = [] -> summarize_report d 3 0%float 100 2 = (Ok [], d)) ∧
  (∀ i refs times,
     top_reports d 100 = i :: refs ->
     requests (value_at d i) = Some times ->
     ∃ e,
       (summarize_report d 3 0%float 100 2).1 = Raise e ∧
       (e = ZeroDivisionError ∨ e = OverflowError) ∧
       (3 = 0 -> e = ZeroDivisionError)).
Proof.
  intros d.
  assert (3 = 0 ∨ PrimFloat.eqb 0%float 0%float = true) as H
    by (right; reflexivity).
  split; [exact H|].
  exact (summary_with_zero_total d 3 0%float 100 2 H).
Defined.

(** [C5] On a [report] in which no ['time_sum'] is a NaN, every row that
    the summary returns holds, for the aggregate that it comes from, if
    none of its durations is a NaN, the share of the requests, the share
    of the total time and the average time, each rounded to the accuracy,
    and the maximum and the median of the durations of the aggregate, the
    median being taken in their ascending order. *)
Theorem rows_hold_the_statistics d total_requests total_requests_time size
  accuracy rows d' j i :
  no_nan_sum d = true ->
  no_nan (default [] (requests (value_at d i))) = true ->
  summarize_report d total_requests total_requests_time size accuracy
    = (Ok rows, d') ->
  top_reports d size !! j = Some i ->
  let v := value_at d i in
  ∃ row times cp tp ta tmax tmed,
    rows !! j = Some row ∧ requests v = Some times ∧
    url row = url v ∧ count row = count v ∧ time_sum row = time_sum v ∧
    count_perc row = Some cp ∧
    (q ← Py.int_truediv (100 * count v) total_requests; Py.round q accuracy)
      = Ok cp ∧
    time_perc row = Some tp ∧
    (q ← Py.float_truediv (PrimFloat.mul 100 (time_sum v)) total_requests_time;
     Py.round q accuracy) = Ok tp ∧
    time_avg row = Some ta ∧
    (q ← Py.float_div_int (time_sum v) (count v); Py.round q accuracy)
      = Ok ta ∧
    time_max row = Some tmax ∧ Py.max times = Ok tmax ∧
    time_med row = Some tmed ∧ Py.median times = Ok tmed ∧
    median_spec times tmed ∧ in_order id (Py.sorted id times).
Proof.
  intros _ Hnan Hs Hj v.
  destruct (summarize_report_row _ _ _ _ _ _ _ _ _ Hs Hj)
    as (ts & s & Hts & Hd & Hrow).
  apply derive_inv in Hd as (Hcp & Htp & Hta & Hmax & Hmed).
  exists (update_derived s (pop_requests v)), ts, (d_count_perc s),
    (d_time_perc s), (d_time_avg s), (d_time_max s), (d_time_med s).
  rewrite Hts in Hnan. simpl in Hnan.
  split_and!; try done; [by apply median_is_median_spec|].
  by apply sorted_in_order.
Qed.

Lemma rows_hold_the_statistics_witness :
  let d := l_report sample_locals in
  let rows := report sample_report in
  no_nan_sum d = true ∧
  no_nan (default [] (requests (value_at d 0))) = true ∧
  ∃ d',
    summarize_report d 3 (l_total_requests_time sample_locals) 100 2
      = (Ok rows, d') ∧
    top_reports d 100 !! 0%nat = Some 0%nat ∧
    ∃ row times cp tp ta tmax tmed,
      rows !! 0%nat = Some row ∧ requests (value_at d 0) = Some times ∧
      url row = url (value_at d 0) ∧ count row = count (value_at d 0) ∧
      time_sum row = time_sum (value_at d 0) ∧
      count_perc row = Some cp ∧
      (q ← Py.int_truediv (100 * count (value_at d 0)) 3; Py.round q 2)
        = Ok cp ∧
      time_perc row = Some tp ∧
      (q ← Py.float_truediv (PrimFloat.mul 100 (time_sum (value_at d 0)))
             (l_total_requests_time sample_locals);
       Py.round q 2) = Ok tp ∧
      time_avg row = Some ta ∧
      (q ← Py.float_div_int (time_sum (value_at d 0)) (count (value_at d 0));
       Py.round q 2) = Ok ta ∧
      time_max row = Some tmax ∧ Py.max times = Ok tmax ∧
      time_med row = Some tmed ∧ Py.median times = Ok tmed ∧
      median_spec times tmed ∧ in_order id (Py.sorted id times).
Proof.
  intros d rows.
  assert (no_nan_sum d = true) as Hsum by (vm_compute; reflexivity).
  assert (no_nan (default [] (requests (value_at d 0))) = true) as Hnan
    by (vm_compute; reflexivity).
  split; [exact Hsum|]. split; [exact Hnan|].
  destruct (summarize_report d 3 (l_total_requests_time sample_locals) 100 2)
    as [r d'] eqn:Hs.
  assert (r = Ok rows) as -> by (by vm_compute in Hs; injection Hs as <- _).
  assert (top_reports d 100 !! 0%nat = Some 0%nat) as Hj
    by (vm_compute; reflexivity).
  exists d'. split; [reflexivity|]. split; [exact Hj|].
  exact (rows_hold_the_statistics d 3 (l_total_requests_time sample_locals)
           100 2 rows d' 0%nat 0%nat Hsum Hnan Hs Hj).
Defined.

(** In the [Report] of [one_request], to 2 decimal places, [time_max] and
    [time_med] are 0.125, which rounding to 2 decimal places changes. *)
Lemma rows_rounded_counterexample :
  ∃ row,
    create_report Str.to_float one_request LOG_LINE_PATTERN 100 2
      = Ok (mkReport [row] 1 0) ∧
    time_max row = Some 0.125%float ∧ time_med row = Some 0.125%float ∧
    ¬ is_rounded 2 0.125%float.
Proof.
  eexists. split_and!; [vm_compute; reflexivity|done..|].
  unfold is_rounded. intros H.
  apply (f_equal (λ r, match r with
                       | Ok x => PrimFloat.eqb x 0.125%float
                       | Raise _ => false
                       end)) in H.
  vm_compute in H. discriminate H.
Qed.


(** [C6] In every row of a [Report], [time_sum], [count_perc], [time_perc]
    and [time_avg] are values of [round] at the accuracy; [time_max] and
    [time_med] are there as well, and are not rounded: [time_max] is the
    maximum of the durations of the key as they were read, and [time_med]
    is their median when none of them is a NaN. *)
Theorem rows_rounded_but_max_and_median py_float lines p report_size accuracy
  r row :
  create_report py_float lines p report_size accuracy = Ok r ->
  row ∈ report r ->
  round_result accuracy (time_sum row) ∧
  (∃ x, count_perc row = Some x ∧ round_result accuracy x) ∧
  (∃ x, time_perc row = Some x ∧ round_result accuracy x) ∧
  (∃ x, time_avg row = Some x ∧ round_result accuracy x) ∧
  ∃ k tmax tmed,
    let times := times_of k (additions py_float lines p) in
    url row = Some k ∧
    time_max row = Some tmax ∧ Py.max times = Ok tmax ∧ tmax ∈ times ∧
    time_med row = Some tmed ∧
    (no_nan times = true ->
     Py.median times = Ok tmed ∧ median_spec times tmed ∧
     in_order id (Py.sorted id times)).
Proof.
  intros (st & d' & Hacc & Hs & _ & _)%create_report_inv Hrow.
  destruct (summarize_report_elem _ _ _ _ _ _ _ _ Hs Hrow)
    as (i & ts & s & Hi & Hts & Hd & ->).
  apply top_reports_lt, lookup_lt_is_Some_2 in Hi as [[k v] Hv].
  rewrite (value_at_lookup _ _ _ _ Hv) in *.
  apply (read_lines_consistent py_float lines p accuracy [] initial st
           (consistent_initial _)) in Hacc as (_ & _ & Hrec).
  destruct (Hrec _ _ _ Hv) as (Hurl & Hreq & Hne & _ & Hsum).
  cbn [app] in Hreq, Hne, Hsum.
  assert (times_of k (additions py_float lines p) = ts) as Hts' by congruence.
  apply derive_inv in Hd as (Hcp & Htp & Hta & Hmax & Hmed).
  split_and!.
  - by eapply rounded_sum_round_result.
  - eexists. split; [done|]. eapply (bind_round_result _ id), Hcp.
  - eexists. split; [done|]. eapply (bind_round_result _ id), Htp.
  - eexists. split; [done|]. eapply (bind_round_result _ id), Hta.
  - exists k, (d_time_max s), (d_time_med s). simpl. rewrite Hts'.
    split_and!; try done; [by apply max_elem_of|].
    intros Hnan. split_and!; [done|by apply median_is_median_spec|].
    by apply sorted_in_order.
Qed.

Lemma rows_rounded_but_max_and_median_witness :
  ∃ row,
    create_report Str.to_float one_request LOG_LINE_PATTERN 100 2
      = Ok one_request_report ∧
    row ∈ report one_request_report ∧
    round_result 2 (time_sum row) ∧
    (∃ x, count_perc row = Some x ∧ round_result 2 x) ∧
    (∃ x, time_perc row = Some x ∧ round_result 2 x) ∧
    (∃ x, time_avg row = Some x ∧ round_result 2 x) ∧
    ∃ k tmax tmed,
      let times :=
        times_of k (additions Str.to_float one_request LOG_LINE_PATTERN) in
      url row = Some k ∧
      time_max row = Some tmax ∧ Py.max times = Ok tmax ∧ tmax ∈ times ∧
      time_med row = Some tmed ∧
      no_nan times = true ∧
      Py.median times = Ok tmed ∧ median_spec times tmed ∧
      in_order id (Py.sorted id times).
Proof.
  assert (∃ row, row ∈ report one_request_report) as [row Hrow]
    by (eexists; apply list_elem_of_here).
  assert (no_nan (additions Str.to_float one_request LOG_LINE_PATTERN).*2
          = true) as Hnan by (vm_compute; reflexivity).
  exists row. split; [exact one_request_report_eq|]. split; [exact Hrow|].
  destruct (rows_rounded_but_max_and_median Str.to_float one_request
              LOG_LINE_PATTERN 100 2 one_request_report row
              one_request_report_eq Hrow)
    as (H1 & H2 & H3 & H4 & k & tmax & tmed & H5 & H6 & H7 & H8 & H9 & H10).
  split; [exact H1|]. split; [exact H2|]. split; [exact H3|].
  split; [exact H4|]. exists k, tmax, tmed.
  split; [exact H5|]. split; [exact H6|]. split; [exact H7|].
  split; [exact H8|]. split; [exact H9|].
  split; [exact (no_nan_times_of k _ Hnan)|].
  exact (H10 (no_nan_times_of k _ Hnan)).
Defined.

(** [C7] After the additions of a run, every aggregate holds the durations
    added for its key, in order; its [count] is their number and its
    [time_sum] is their running sum, rounded to the accuracy after each
    addition. *)
Theorem aggregates_record_additions py_float lines p accuracy st k v :
  accumulate py_float lines p accuracy = Ok st ->
  (k, v) ∈ l_report st ->
  let times := times_of k (additions py_float lines p) in
  requests v = Some times ∧
  count v = Z.of_nat (length times) ∧
  rounded_sum accuracy 0%float times = Ok (time_sum v).
Proof.
  intros H [i Hi]%list_elem_of_lookup_1.
  apply (read_lines_consistent py_float lines p accuracy [] initial st
           (consistent_initial _)) in H as (_ & _ & Hrec).
  destruct (Hrec _ _ _ Hi) as (_ & ? & _ & ? & ?). done.
Qed.

Lemma aggregates_record_additions_witness :
  let v := value_at (l_report sample_locals) 0 in
  let times :=
    times_of "1.1.1.1" (additions Str.to_float sample LOG_LINE_PATTERN) in
  accumulate Str.to_float sample LOG_LINE_PATTERN 2 = Ok sample_locals ∧
  ("1.1.1.1"%string, v) ∈ l_report sample_locals ∧
  requests v = Some times ∧
  count v = Z.of_nat (length times) ∧
  rounded_sum 2 0%float times = Ok (time_sum v).
Proof.
  assert (accumulate Str.to_float sample LOG_LINE_PATTERN 2 = Ok sample_locals)
    as H by (vm_compute; reflexivity).
  assert (("1.1.1.1"%string, value_at (l_report sample_locals) 0)
            ∈ l_report sample_locals) as Hin
    by (apply list_elem_of_lookup_2 with 0%nat; vm_compute; reflexivity).
  split; [exact H|]. split; [exact Hin|].
  exact (aggregates_record_additions Str.to_float sample LOG_LINE_PATTERN 2
           sample_locals _ _ H Hin).
Defined.

(** [C8] In the [Report] that a run returns, the lines read are the errors
    and the requests counted by the aggregates: [total_requests] is
    [total_errors] plus the sum of [count] over the aggregates, which is the
    number of additions made. *)
Theorem total_requests_balance py_float lines p report_size accuracy r :
  create_report py_float lines p report_size accuracy = Ok r ->
  ∃ st,
    accumulate py_float lines p accuracy = Ok st ∧
    total_requests r = total_errors r + sum_counts (l_report st) ∧
    sum_counts (l_report st)
      = Z.of_nat (length (additions py_float lines p)).
Proof.
  intros (st & d' & Hacc & _ & -> & ->)%create_report_inv.
  exists st. split; [done|].
  pose proof (read_lines_counters _ _ _ _ _ _ Hacc) as [H _].
  pose proof (read_lines_sum_counts _ _ _ _ _ _ Hacc) as H'.
  simpl in H, H'. split; lia.
Qed.

Lemma total_requests_balance_witness :
  create_report Str.to_float sample LOG_LINE_PATTERN 100 2 = Ok sample_report ∧
  ∃ st,
    accumulate Str.to_float sample LOG_LINE_PATTERN 2 = Ok st ∧
    total_requests sample_report
      = total_errors sample_report + sum_counts (l_report st) ∧
    sum_counts (l_report st)
      = Z.of_nat (length (additions Str.to_float sample LOG_LINE_PATTERN)).
Proof.
  split; [exact sample_report_eq|].
  exact (total_requests_balance Str.to_float sample LOG_LINE_PATTERN 100 2
           sample_report sample_report_eq).
Defined.

(** On the [report] of [sample] the first summary returns its two rows and
    the second one raises. *)
Lemma summary_twice_counterexample :
  let d := l_report sample_locals in
  let total := l_total_requests_time sample_locals in
  (summarize_report d 3 total 100 2).1 = Ok (report sample_report) ∧
  (summarize_report (summarize_report d 3 total 100 2).2 3 total 100 2).1
    = Raise KeyError.
Proof. split; vm_compute; reflexivity. Qed.

(** [C9] The summary can be made once: after a summary that has returned
    rows, a second summary of the same [report], which the first one has
    changed, raises [KeyError]; after a summary without rows the second one
    is again without rows. *)
Theorem summary_twice d total_requests total_requests_time size accuracy
  rows d' :
  summarize_report d total_requests total_requests_time size accuracy
    = (Ok rows, d') ->
  (rows = [] ->
   summarize_report d' total_requests total_requests_time size accuracy
     = (Ok [], d')) ∧
  (rows ≠ [] ->
   summarize_report d' total_requests total_requests_time size accuracy
     = (Raise KeyError, d')).
Proof.
  intros Hs. destruct (summarize_report_again _ _ _ _ _ _ _ Hs) as [Htop Hreq].
  apply summarize_report_inv in Hs as [_ ->].
  unfold summarize_report at 1 2. rewrite Htop.
  destruct (top_reports d size) as [|i refs]; simpl; [done|].
  rewrite Hreq by left. done.
Qed.

Lemma summary_twice_witness :
  let d := l_report sample_locals in
  let total := l_total_requests_time sample_locals in
  ∃ rows d',
    summarize_report d 3 total 100 2 = (Ok rows, d') ∧
    (rows = [] -> summarize_report d' 3 total 100 2 = (Ok [], d')) ∧
    (rows ≠ [] -> summarize_report d' 3 total 100 2 = (Raise KeyError, d')).
Proof.
  intros d total.
  destruct (summarize_report d 3 total 100 2) as [r d'] eqn:Hs.
  assert (∃ rows, r = Ok rows) as [rows ->]
    by (vm_compute in Hs; injection Hs as <- _; by eexists).
  exists rows, d'. split; [reflexivity|].
  exact (summary_twice d 3 total 100 2 rows d' Hs).
Defined.

(** [C10] A [Report] that is returned counts at most one error: the loop
    over the lines stops at the first line on which the [try] raises. *)
Theorem total_errors_at_most_1 py_float lines p report_size accuracy r :
  create_report py_float lines p report_size accuracy = Ok r ->
  0 <= total_errors r <= 1.
Proof.
  intros (st & d' & Hacc & _ & _ & ->)%create_report_inv.
  pose proof (read_lines_counters _ _ _ _ _ _ Hacc) as [_ H].
  simpl in H. lia.
Qed.

Lemma total_errors_at_most_1_witness :
  create_report Str.to_float sample_dash LOG_LINE_PATTERN 100 2
    = Ok sample_dash_report ∧
  0 <= total_errors sample_dash_report <= 1.
Proof.
  split; [exact sample_dash_report_eq|].
  exact (total_errors_at_most_1 Str.to_float sample_dash LOG_LINE_PATTERN 100 2
           sample_dash_report sample_dash_report_eq).
Defined.

(** * Further properties *)

(** ** The number of rows *)

Lemma slice_to_length {A} (l : list A) n :
  Z.of_nat (length (Py.slice_to l n)) =
  if 0 <=? n then Z.min n (Z.of_nat (length l))
  else Z.max 0 (Z.of_nat (length l) + n).
Proof.
  unfold Py.slice_to. destruct (Z.leb_spec 0 n); rewrite length_take; lia.
Qed.

Lemma top_reports_count d size :
  Z.of_nat (length (top_reports d size)) =
  if 0 <=? size then Z.min size (Z.of_nat (length d))
  else Z.max 0 (Z.of_nat (length d) + size).
Proof.
  unfold top_reports. rewrite slice_to_length.
  rewrite (Permutation_length (sorted_perm _ _)), length_seq.
  destruct (Z.ltb_spec size (Z.of_nat (length d)));
    destruct (Z.leb_spec 0 size); try lia.
  destruct (Z.leb_spec 0 (Z.of_nat (length d))); lia.
Qed.

(** [X1] The summary has [min(size, n)] rows for a [size] that is not
    negative and [max(0, n + size)] rows for a negative one, [n] being the
    number of aggregates: a negative [size] drops that many rows from the
    end. *)
Theorem summary_row_count d total_requests total_requests_time size accuracy
  rows d' :
  summarize_report d total_requests total_requests_time size accuracy
    = (Ok rows, d') ->
  Z.of_nat (length rows) =
  if 0 <=? size then Z.min size (Z.of_nat (length d))
  else Z.max 0 (Z.of_nat (length d) + size).
Proof.
  intros [_ ->]%summarize_report_inv.
  rewrite length_fmap. apply top_reports_count.
Qed.

Lemma summary_row_count_witness :
  let d := l_report sample_locals in
  let total := l_total_requests_time sample_locals in
  ∃ rows d',
    summarize_report d 3 total (-1) 2 = (Ok rows, d') ∧
    Z.of_nat (length rows) =
    if 0 <=? -1 then Z.min (-1) (Z.of_nat (length d))
    else Z.max 0 (Z.of_nat (length d) + -1).
Proof.
  intros d total.
  destruct (summarize_report d 3 total (-1) 2) as [r d'] eqn:Hs.
  assert (∃ rows, r = Ok rows) as [rows ->]
    by (vm_compute in Hs; injection Hs as <- _; by eexists).
  exists rows, d'. split; [reflexivity|].
  exact (summary_row_count d 3 total (-1) 2 rows d' Hs).
Defined.

(** ** The rows of a [Report] *)

(** The rows of a [Report], by the aggregates they come from. *)
Lemma create_report_rows py_float lines p report_size accuracy r :
  create_report py_float lines p report_size accuracy = Ok r ->
  ∃ st refs,
    accumulate py_float lines p accuracy = Ok st ∧
    refs = top_reports (l_report st) report_size ∧
    Forall2
      (λ i row, ∃ k v ts s,
         l_report st !! i = Some (k, v) ∧ requests v = Some ts ∧
         derive v ts (l_total_requests st) (l_total_requests_time st) accuracy
           = Ok s ∧
         row = update_derived s (pop_requests v))
      refs (report r).
Proof.
  intros (st & d' & Hacc & Hs & _ & _)%create_report_inv.
  exists st, (top_reports (l_report st) report_size).
  split_and!; [done..|].
  apply Forall2_same_length_lookup. split.
  { apply summarize_report_inv in Hs as [_ ->]. by rewrite length_fmap. }
  intros j i row Hi Hrow.
  destruct (summarize_report_row _ _ _ _ _ _ _ _ _ Hs Hi)
    as (ts & s & Hts & Hd & Hrow').
  assert (i < length (l_report st))%nat as [[k v] Hv]%lookup_lt_is_Some_2.
  { eapply top_reports_lt, list_elem_of_lookup_2, Hi. }
  rewrite (value_at_lookup _ _ _ _ Hv) in *.
  exists k, v, ts, s. split_and!; try done. congruence.
Qed.

(** [X2] The rows of a [Report] are for distinct client addresses, and each
    address is that of a line that was read and added. *)
Theorem report_rows_distinct py_float lines p report_size accuracy r :
  create_report py_float lines p report_size accuracy = Ok r ->
  ∃ keys,
    url <$> report r = Some <$> keys ∧ NoDup keys ∧
    ∀ k, k ∈ keys -> k ∈ (additions py_float lines p).*1.
Proof.
  intros (st & refs & Hacc & -> & Hrows)%create_report_rows.
  pose proof (read_lines_consistent py_float lines p accuracy [] initial st
                (consistent_initial _) Hacc) as (Hnd & _ & Hrec).
  cbn [app] in Hrec.
  pose proof (top_reports_NoDup (l_report st) report_size) as Hrefs.
  pose proof (top_reports_lt (l_report st) report_size) as Hlt.
  exists ((λ i, (l_report st !!! i).1)
            <$> top_reports (l_report st) report_size).
  split_and!.
  - clear Hrefs Hlt. induction Hrows as [|i row refs rows Hrow _ IH]; [done|].
    destruct Hrow as (k & v & ts & s & Hv & _ & _ & ->).
    rewrite !fmap_cons, IH, (list_lookup_total_correct _ _ _ Hv). simpl.
    by destruct (Hrec _ _ _ Hv) as (-> & _).
  - apply NoDup_fmap_2_strong; [|done].
    intros i j Hi%Hlt Hj%Hlt Heq.
    apply lookup_lt_is_Some_2 in Hi as [[ki vi] Hi], Hj as [[kj vj] Hj].
    rewrite (list_lookup_total_correct _ _ _ Hi),
      (list_lookup_total_correct _ _ _ Hj) in Heq. simpl in Heq. subst kj.
    eapply NoDup_lookup; [exact Hnd| |];
      rewrite list_lookup_fmap; [by rewrite Hi|by rewrite Hj].
  - intros k (i & -> & Hi%Hlt)%list_elem_of_fmap.
    apply lookup_lt_is_Some_2 in Hi as [[ki vi] Hi].
    rewrite (list_lookup_total_correct _ _ _ Hi). simpl.
    destruct (Hrec _ _ _ Hi) as (_ & _ & Hne & _).
    destruct (decide (ki ∈ (additions py_float lines p).*1)) as [|Hnot];
      [done|].
    by apply times_of_absent in Hnot.
Qed.

Lemma report_rows_distinct_witness :
  create_report Str.to_float sample LOG_LINE_PATTERN 100 2 = Ok sample_report ∧
  ∃ keys,
    url <$> report sample_report = Some <$> keys ∧ NoDup keys ∧
    ∀ k, k ∈ keys ->
         k ∈ (additions Str.to_float sample LOG_LINE_PATTERN).*1.
Proof.
  split; [exact sample_report_eq|].
  exact (report_rows_distinct Str.to_float sample LOG_LINE_PATTERN 100 2
           sample_report sample_report_eq).
Defined.

(** ** The order of the rows of a [Report] *)

(** [X3] When no aggregate of the run has a NaN for its ['time_sum'], the
    rows of the [Report] come by [time_sum] in ascending order: the
    [time_sum] of a row is at most that of every row after it. *)
Theorem report_rows_ascending py_float lines p report_size accuracy st r :
  accumulate py_float lines p accuracy = Ok st ->
  no_nan_sum (l_report st) = true ->
  create_report py_float lines p report_size accuracy = Ok r ->
  in_order time_sum (report r).
Proof.
  intros Hacc Hnan (st' & d' & Hacc' & Hs & _ & _)%create_report_inv.
  assert (st' = st) as -> by congruence.
  apply ascending_in_order; [|by eapply summarize_report_ascending].
  apply Forall_forall. intros row Hrow.
  destruct (summarize_report_elem _ _ _ _ _ _ _ _ Hs Hrow)
    as (i & ts & s & Hi & _ & _ & ->). simpl.
  apply top_reports_lt, lookup_lt_is_Some_2 in Hi as [[k v] Hv].
  rewrite (value_at_lookup _ _ _ _ Hv). by eapply no_nan_sum_lookup.
Qed.

Lemma report_rows_ascending_witness :
  accumulate Str.to_float sample LOG_LINE_PATTERN 2 = Ok sample_locals ∧
  no_nan_sum (l_report sample_locals) = true ∧
  create_report Str.to_float sample LOG_LINE_PATTERN 100 2 = Ok sample_report ∧
  in_order time_sum (report sample_report).
Proof.
  assert (accumulate Str.to_float sample LOG_LINE_PATTERN 2 = Ok sample_locals)
    as H by (vm_compute; reflexivity).
  assert (no_nan_sum (l_report sample_locals) = true) as Hnan
    by (vm_compute; reflexivity).
  split; [exact H|]. split; [exact Hnan|]. split; [exact sample_report_eq|].
  exact (report_rows_ascending Str.to_float sample LOG_LINE_PATTERN 100 2
           sample_locals sample_report H Hnan sample_report_eq).
Defined.

(** ** The lines that are read *)

Lemma read_lines_prefix py_float lines p accuracy st :
  read_lines py_float lines p accuracy st =
  read_lines py_float
    (take (S (length (additions py_float lines p))) lines) p accuracy st.
Proof.
  revert st. induction lines as [|line lines IH]; intros st; [done|].
  cbn [additions].
  destruct (read_request py_float line p) as [[url request_time]|e] eqn:Hr.
  - cbn [length take read_lines]. rewrite Hr.
    destruct (add_request _ _ _ _) as [st1|]; simpl; [apply IH|done].
  - cbn [length take read_lines]. by rewrite Hr.
Qed.

(** [X5] [create_report] reads the lines up to the first one on which the
    [try] raises, that line included: what it returns or raises is what it
    returns or raises on that part of the file alone. *)
Theorem create_report_stops_at_first_failure py_float lines p report_size
  accuracy :
  create_report py_float lines p report_size accuracy =
  create_report py_float
    (take (S (length (additions py_float lines p))) lines) p report_size
    accuracy.
Proof. unfold create_report, accumulate. by rewrite read_lines_prefix at 1. Qed.

(** ** The totals of a run *)

Lemma add_request_total url request_time accuracy st st' :
  add_request url request_time accuracy st = Ok st' ->
  Py.round (PrimFloat.add (l_total_requests_time st) request_time) accuracy
    = Ok (l_total_requests_time st').
Proof.
  unfold add_request. destruct (getitem url (l_report st)) as [i d].
  intros (t & _ & H)%bind_Ok.
  apply bind_Ok in H as (total & Htotal & H).
  injection H as <-. done.
Qed.

Lemma read_lines_total py_float lines p accuracy st st' :
  read_lines py_float lines p accuracy st = Ok st' ->
  rounded_sum accuracy (l_total_requests_time st)
    (additions py_float lines p).*2 = Ok (l_total_requests_time st').
Proof.
  revert st. induction lines as [|line lines IH]; intros st; simpl.
  - by intros [= <-].
  - destruct (read_request py_float line p) as [[url request_time]|e].
    + intros (st1 & Hadd & H)%bind_Ok.
      apply add_request_total in Hadd. simpl in Hadd.
      cbn [fmap list_fmap snd rounded_sum]. rewrite Hadd. simpl.
      by apply IH.
    + destruct (caught e); [|done]. by intros [= <-].
Qed.

(** [X6] The shares in the rows of a [Report] are shares of the whole run:
    [count_perc] is relative to [total_requests], the line that ended the
    run with an error included, and [time_perc] to the running sum of all
    the durations added, rounded to the accuracy after each addition. *)
Theorem report_shares_of_the_run py_float lines p report_size accuracy r :
  create_report py_float lines p report_size accuracy = Ok r ->
  ∃ total,
    rounded_sum accuracy 0%float (additions py_float lines p).*2 = Ok total ∧
    ∀ row, row ∈ report r ->
      ∃ cp tp,
        count_perc row = Some cp ∧
        (q ← Py.int_truediv (100 * count row) (total_requests r);
         Py.round q accuracy) = Ok cp ∧
        time_perc row = Some tp ∧
        (q ← Py.float_truediv (PrimFloat.mul 100 (time_sum row)) total;
         Py.round q accuracy) = Ok tp.
Proof.
  intros (st & d' & Hacc & Hs & -> & _)%create_report_inv.
  exists (l_total_requests_time st). split.
  { apply (read_lines_total _ _ _ _ _ _ Hacc). }
  intros row Hrow.
  destruct (summarize_report_elem _ _ _ _ _ _ _ _ Hs Hrow)
    as (i & ts & s & _ & _ & Hd & ->).
  apply derive_inv in Hd as (Hcp & Htp & _).
  exists (d_count_perc s), (d_time_perc s). by split_and!.
Qed.

Lemma report_shares_of_the_run_witness :
  create_report Str.to_float sample_dash LOG_LINE_PATTERN 100 2
    = Ok sample_dash_report ∧
  ∃ total,
    rounded_sum 2 0%float
      (additions Str.to_float sample_dash LOG_LINE_PATTERN).*2 = Ok total ∧
    ∀ row, row ∈ report sample_dash_report ->
      ∃ cp tp,
        count_perc row = Some cp ∧
        (q ← Py.int_truediv (100 * count row)
               (total_requests sample_dash_report);
         Py.round q 2) = Ok cp ∧
        time_perc row = Some tp ∧
        (q ← Py.float_truediv (PrimFloat.mul 100 (time_sum row)) total;
         Py.round q 2) = Ok tp.
Proof.
  split; [exact sample_dash_report_eq|].
  exact (report_shares_of_the_run Str.to_float sample_dash LOG_LINE_PATTERN
           100 2 sample_dash_report sample_dash_report_eq).
Defined.

(** ** What the summary leaves of [report] *)

Lemma summarize_loop_frame refs total_requests total_requests_time accuracy
  d r d' :
  summarize_loop refs total_requests total_requests_time accuracy d = (r, d') ->
  ∀ j, j ∉ refs -> d' !! j = d !! j.
Proof.
  revert d. induction refs as [|i refs IH]; intros d; simpl.
  - by intros [= _ <-].
  - destruct (requests (value_at d i)) as [ts|]; [|by intros [= _ <-]].
    destruct (derive _ _ _ _ _) as [s|e].
    + intros H j [Hne Hj]%not_elem_of_cons.
      rewrite (IH _ H j Hj). unfold update_value.
      by rewrite !list_lookup_alter_ne.
    + intros [= _ <-] j [Hne Hj]%not_elem_of_cons.
      unfold update_value. by rewrite list_lookup_alter_ne.
Qed.

Lemma summarize_loop_url refs total_requests total_requests_time accuracy
  d r d' :
  summarize_loop refs total_requests total_requests_time accuracy d = (r, d') ->
  ∀ j, url (value_at d' j) = url (value_at d j).
Proof.
  revert d. induction refs as [|i refs IH]; intros d; simpl.
  - by intros [= _ <-].
  - destruct (requests (value_at d i)) as [ts|]; [|by intros [= _ <-]].
    assert (∀ f j, (∀ v, url (f v) = url v) ->
      url (value_at (update_value i f d) j) = url (value_at d j)) as Hupd.
    { intros f j Hf. destruct (decide (i = j)) as [<-|Hne].
      - destruct (decide (i < length d)%nat).
        + rewrite update_value_at by done. apply Hf.
        + by rewrite update_value_ge by lia.
      - by rewrite update_value_at_ne. }
    destruct (derive _ _ _ _ _) as [s|e].
    + intros H j. rewrite (IH _ H j), update_value_compose. by apply Hupd.
    + intros [= _ <-] j. by apply Hupd.
Qed.

(** [X7] On the [report] that the loop of [create_report] has built, with
    no NaN for a ['time_sum'], the summary, whether it returns or raises,
    leaves the keys in their order and, in every aggregate, ['url'],
    ['count'] and ['time_sum']; an aggregate that is not selected is left
    as it is. *)
Theorem summary_frame py_float lines p accuracy st total_requests
  total_requests_time size r d' :
  accumulate py_float lines p accuracy = Ok st ->
  no_nan_sum (l_report st) = true ->
  summarize_report (l_report st) total_requests total_requests_time size
    accuracy = (r, d') ->
  d'.*1 = (l_report st).*1 ∧
  (∀ j, j ∉ top_reports (l_report st) size -> d' !! j = l_report st !! j) ∧
  ∀ j, url (value_at d' j) = url (value_at (l_report st) j) ∧
       count (value_at d' j) = count (value_at (l_report st) j) ∧
       time_sum (value_at d' j) = time_sum (value_at (l_report st) j).
Proof.
  intros _ _. unfold summarize_report.
  destruct (summarize_loop _ _ _ _ _) as [r0 d0] eqn:Hloop.
  intros H. assert (d0 = d') as -> by (by destruct r0; injection H).
  clear H.
  destruct (summarize_loop_keeps _ _ _ _ _ _ _ Hloop) as [Hk Hv].
  split_and!; [done|by eapply summarize_loop_frame|].
  intros j. destruct (Hv j) as (? & ? & _).
  split_and!; [by eapply summarize_loop_url|done..].
Qed.

Lemma summary_frame_witness :
  let d := l_report sample_locals in
  let total := l_total_requests_time sample_locals in
  accumulate Str.to_float sample LOG_LINE_PATTERN 2 = Ok sample_locals ∧
  no_nan_sum d = true ∧
  ∃ r d',
    summarize_report d 3 total 1 2 = (r, d') ∧
    d'.*1 = d.*1 ∧
    (∀ j, j ∉ top_reports d 1 -> d' !! j = d !! j) ∧
    ∀ j, url (value_at d' j) = url (value_at d j) ∧
         count (value_at d' j) = count (value_at d j) ∧
         time_sum (value_at d' j) = time_sum (value_at d j).
Proof.
  intros d total.
  assert (accumulate Str.to_float sample LOG_LINE_PATTERN 2 = Ok sample_locals)
    as H by (vm_compute; reflexivity).
  assert (no_nan_sum d = true) as Hnan by (vm_compute; reflexivity).
  split; [exact H|]. split; [exact Hnan|].
  destruct (summarize_report d 3 total 1 2) as [r d'] eqn:Hs.
  exists r, d'. split; [reflexivity|].
  exact (summary_frame Str.to_float sample LOG_LINE_PATTERN 2 sample_locals
           3 total 1 r d' H Hnan Hs).
Defined.

(** ** The exceptions of a run *)

(** [X4] The exceptions that [create_report] raises are [TypeError], on a
    file with a line that the pattern does not match, [ZeroDivisionError]
    and [OverflowError]: the [ValueError] and [KeyError] of the [try] and
    those of [max] and [median] do not leave it. *)
Theorem create_report_raises_only py_float lines p report_size accuracy e :
  create_report py_float lines p report_size accuracy = Raise e ->
  (e = TypeError ∧ ∃ line, line ∈ lines ∧ p line = None) ∨
  e = ZeroDivisionError ∨ e = OverflowError.
Proof.
  intros H.
  destruct (create_report_Raise _ _ _ _ _ _ H) as [->|He]; [|by right].
  left. split; [done|].
  unfold create_report in H.
  destruct (accumulate py_float lines p accuracy) as [st|e'] eqn:Hacc.
  { simpl in H. unfold summarize_report in H.
    destruct (summarize_loop _ _ _ _ _) as [[[]|e'] d'] eqn:Hloop;
      simpl in H; [done|].
    injection H as ->.
    eapply summarize_loop_Raise in Hloop as [?|?]; [done|done|..].
    - apply top_reports_NoDup.
    - intros i Hi%top_reports_lt. split; [done|].
      apply lookup_lt_is_Some_2 in Hi as [[k v] Hv].
      apply (read_lines_consistent py_float lines p accuracy [] initial st
               (consistent_initial _)) in Hacc as (_ & _ & Hrec).
      destruct (Hrec _ _ _ Hv) as (_ & Hreq & Hne & _).
      rewrite (value_at_lookup _ _ _ _ Hv). eauto. }
  simpl in H. injection H as ->. clear -Hacc. unfold accumulate in Hacc.
  revert Hacc. generalize initial.
  induction lines as [|line lines IH]; intros st; simpl; [done|].
  destruct (read_request py_float line p) as [[url request_time]|e] eqn:Hr.
  - destruct (add_request _ _ _ _) as [st1|e] eqn:Hadd; simpl.
    + intros (l & Hl & Hp)%IH. exists l. split; [by right|done].
    + intros [= ->]. by apply add_request_Raise in Hadd.
  - destruct (caught e) eqn:He; [done|]. intros [= ->].
    exists line. split; [by left|].
    unfold read_request, parse_line in Hr.
    destruct (p line) as [request|]; [|done].
    unfold group in Hr.
    destruct (request !! "remote_addr"%string); simpl in Hr; [|done].
    destruct (request !! "request_time"%string); simpl in Hr; [|done].
    by destruct (py_float _).
Qed.

Lemma create_report_raises_only_witness :
  let lines := [log_line "1.1.1.1" "0.125"; "not an access log line"%string] in
  create_report Str.to_float lines LOG_LINE_PATTERN 100 2 = Raise TypeError ∧
  ((TypeError = TypeError ∧
    ∃ line, line ∈ lines ∧ LOG_LINE_PATTERN line = None) ∨
   TypeError = ZeroDivisionError ∨ TypeError = OverflowError).
Proof.
  intros lines.
  assert (create_report Str.to_float lines LOG_LINE_PATTERN 100 2
          = Raise TypeError) as H by (vm_compute; reflexivity).
  split; [exact H|].
  exact (create_report_raises_only Str.to_float lines LOG_LINE_PATTERN 100 2
           TypeError H).
Defined.

(** ** The groups of [LOG_LINE_PATTERN] *)

(** Where a repetition leads: to what follows it, after some characters. *)
Lemma run_Repeat c lo hi greedy items s st st' :
  Re.run (Re.Repeat c lo hi greedy :: items) s st = Some st' ->
  ∃ s1 n, Re.run items s1 (Re.MState (n + Re.pos st) (Re.opened st)
                             (Re.closed st)) = Some st'.
Proof.
  cbn [Re.run].
  assert (∀ n,
    (fix rep (s : list ascii) (n : nat) (st : Re.mstate) {struct s} :
       option Re.mstate :=
       let stop (_ : unit) :=
         if (lo <=? n)%nat then Re.run items s st else None in
       let more (_ : unit) :=
         match s with
         | ch :: s' =>
             if c ch && Re.below hi n then rep s' (S n) (Re.advance st)
             else None
         | [] => None
         end in
       if greedy then
         match more () with Some r => Some r | None => stop () end
       else
         match stop () with Some r => Some r | None => more () end)
      s n st = Some st' ->
    ∃ s1 n, Re.run items s1 (Re.MState (n + Re.pos st) (Re.opened st)
                               (Re.closed st)) = Some st') as H; [|apply H].
  revert st. induction s as [|ch s IH]; intros st n H.
  - assert (Re.run items [] st = Some st') as H'.
    { destruct greedy, (lo <=? n)%nat; simpl in H; try done.
      by destruct (Re.run items [] st). }
    exists [], 0%nat. by destruct st.
  - cbn beta iota zeta delta -[Re.run] in H. fold Re.run in H.
    set (rest := (fix rep (s : list ascii) (n : nat) (st : Re.mstate)
                    {struct s} : option Re.mstate := _)) in H.
    assert (Re.run items (ch :: s) st = Some st' ∨
            rest s (S n) (Re.advance st) = Some st') as [H'|H'].
    { destruct greedy, (c ch && Re.below hi n), (lo <=? n)%nat;
        simpl in H; try done; try (by left); try (by right).
      - destruct (rest s (S n) (Re.advance st)); [right|left]; done.
      - destruct (rest s (S n) (Re.advance st)); [by right|done].
      - destruct (Re.run items (ch :: s) st); [left|right]; done.
      - destruct (Re.run items (ch :: s) st); [by left|done]. }
    + exists (ch :: s), 0%nat. by destruct st.
    + apply IH in H' as (s1 & m & H'). exists s1, (m + 1)%nat.
      simpl in H'. by rewrite <-Nat.add_assoc.
Qed.

(** What follows a sequence of items is matched from some later state; the
    groups are as they were when the items are no ends of groups. *)
Lemma run_app l1 l2 s st st' :
  Re.run (l1 ++ l2) s st = Some st' ->
  ∃ s1 st1,
    Re.run l2 s1 st1 = Some st' ∧
    (forallb char_item l1 = true ->
     Re.opened st1 = Re.opened st ∧ Re.closed st1 = Re.closed st).
Proof.
  revert s st. induction l1 as [|it l1 IH]; intros s st H.
  { by exists s, st. }
  destruct it as [c|c lo hi greedy|name|name].
  - simpl in H. destruct s as [|ch s]; [done|].
    destruct (c ch); [|done].
    apply IH in H as (s1 & st1 & H & Hg). exists s1, st1. split; [done|].
    intros Hl. by apply Hg.
  - rewrite <-app_comm_cons in H.
    apply run_Repeat in H as (s0 & n & H).
    apply IH in H as (s1 & st1 & H & Hg). exists s1, st1. split; [done|].
    intros Hl. by apply Hg.
  - simpl in H. apply IH in H as (s1 & st1 & H & _). by exists s1, st1.
  - simpl in H. apply IH in H as (s1 & st1 & H & _). by exists s1, st1.
Qed.

(** A group that is closed stays closed. *)
Lemma run_closed items s st st' name :
  Re.run items s st = Some st' ->
  name ∈ (Re.closed st).*1 -> name ∈ (Re.closed st').*1.
Proof.
  revert s st. induction items as [|it items IH]; intros s st H Hin.
  { by injection H as <-. }
  destruct it as [c|c lo hi greedy|n|n].
  - simpl in H. destruct s as [|ch s]; [done|].
    destruct (c ch); [|done]. by eapply IH.
  - apply run_Repeat in H as (s0 & k & H). by eapply IH.
  - simpl in H. by eapply IH.
  - simpl in H. eapply IH; [done|]. unfold Re.close_group.
    destruct (Re.opened st) as [|[]]; [done|]. simpl. by right.
Qed.

Lemma run_group l1 name body l2 s st st' :
  forallb char_item body = true ->
  Re.run (l1 ++ Re.Open name :: body ++ Re.Close name :: l2) s st = Some st' ->
  name ∈ (Re.closed st').*1.
Proof.
  intros Hbody (s1 & st1 & H & _)%run_app. simpl in H.
  apply run_app in H as (s2 & st2 & H & Hg).
  destruct (Hg Hbody) as [Ho Hc]. simpl in H.
  eapply run_closed; [done|]. unfold Re.close_group. rewrite Ho. simpl.
  by left.
Qed.

Lemma run_group_at items i m name s st st' :
  items !! i = Some (Re.Open name) ->
  items !! (S i + m)%nat = Some (Re.Close name) ->
  forallb char_item (take m (drop (S i) items)) = true ->
  Re.run items s st = Some st' ->
  name ∈ (Re.closed st').*1.
Proof.
  intros Hi Hj Hbody H.
  rewrite <-(take_drop_middle items i _ Hi) in H.
  assert (drop (S i) items !! m = Some (Re.Close name)) as Hm.
  { by rewrite lookup_drop. }
  rewrite <-(take_drop_middle (drop (S i) items) m _ Hm) in H.
  by eapply run_group.
Qed.

Lemma compile_group items line request name :
  Re.compile items line = Some request ->
  (∀ st, Re.run items (list_ascii_of_string line) (Re.MState 0 [] [])
         = Some st -> name ∈ (Re.closed st).*1) ->
  is_Some (request !! name).
Proof.
  unfold Re.compile.
  destruct (Re.run items _ _) as [st|]; [|done]. intros [= <-] Hin.
  specialize (Hin _ eq_refl).
  destruct (list_to_map _ !! name) eqn:Hl; [done|].
  apply not_elem_of_list_to_map_2 in Hl. destruct Hl.
  by rewrite <-list_fmap_compose.
Qed.

Lemma LOG_LINE_PATTERN_group line request name :
  LOG_LINE_PATTERN line = Some request ->
  name ∈ group_names -> is_Some (request !! name).
Proof.
  intros H Hname. eapply compile_group; [exact H|]. intros st Hrun.
  unfold group_names in Hname.
  repeat (apply elem_of_cons in Hname as [->|Hname]);
    [..|by apply elem_of_nil in Hname];
    first
      [ by eapply (run_group_at _ 0 7) in Hrun
      | by eapply (run_group_at _ 10 1) in Hrun
      | by eapply (run_group_at _ 14 1) in Hrun
      | by eapply (run_group_at _ 19 1) in Hrun
      | by eapply (run_group_at _ 25 1) in Hrun
      | by eapply (run_group_at _ 30 1) in Hrun
      | by eapply (run_group_at _ 34 1) in Hrun
      | by eapply (run_group_at _ 39 1) in Hrun
      | by eapply (run_group_at _ 45 1) in Hrun
      | by eapply (run_group_at _ 51 1) in Hrun
      | by eapply (run_group_at _ 57 1) in Hrun
      | by eapply (run_group_at _ 63 1) in Hrun
      | by eapply (run_group_at _ 68 1) in Hrun ].
Qed.

Lemma matched_Some {A} (x : option A) :
  (match x with Some _ => true | None => false end) = true ->
  ∃ a, x = Some a.
Proof. destruct x; [by eexists|done]. Qed.

(** [X8] A line that [LOG_LINE_PATTERN] matches gives each of the thirteen
    named groups of the pattern. *)
Theorem match_gives_every_group line request name :
  LOG_LINE_PATTERN line = Some request ->
  name ∈ group_names -> is_Some (request !! name).
Proof. apply LOG_LINE_PATTERN_group. Qed.

Lemma match_gives_every_group_witness :
  ∃ request,
    LOG_LINE_PATTERN (log_line "1.1.1.1" "0.125") = Some request ∧
    "remote_addr"%string ∈ group_names ∧
    is_Some (request !! "remote_addr"%string).
Proof.
  destruct (matched_Some (LOG_LINE_PATTERN (log_line "1.1.1.1" "0.125")))
    as [request H]; [vm_compute; reflexivity|].
  assert ("remote_addr"%string ∈ group_names) as Hname
    by apply list_elem_of_here.
  exists request. split; [exact H|]. split; [exact Hname|].
  exact (match_gives_every_group (log_line "1.1.1.1" "0.125") request
           "remote_addr" H Hname).
Defined.

(** [X9] With [LOG_LINE_PATTERN], the [try] of [create_report] raises on a
    line in two cases only: [TypeError] when the line is not matched, and
    [ValueError] when it is matched and [float] rejects its request time.
    The [KeyError] that the [except] clause names is never raised. *)
Theorem try_raises_on_LOG_LINE_PATTERN py_float line e :
  read_request py_float line LOG_LINE_PATTERN = Raise e ->
  (e = TypeError ∧ LOG_LINE_PATTERN line = None) ∨
  (e = ValueError ∧
   ∃ request s,
     LOG_LINE_PATTERN line = Some request ∧
     request !! "request_time"%string = Some s ∧ py_float s = None).
Proof.
  unfold read_request, parse_line, group.
  destruct (LOG_LINE_PATTERN line) as [request|] eqn:Hm;
    [|intros [= <-]; by left].
  destruct (LOG_LINE_PATTERN_group line request "remote_addr" Hm)
    as [url ->]; [unfold group_names; set_solver|].
  destruct (LOG_LINE_PATTERN_group line request "request_time" Hm)
    as [s Hs]; [unfold group_names; set_solver|].
  rewrite Hs. simpl. destruct (py_float s) eqn:Hf; [done|].
  intros [= <-]. right. split; [done|]. by exists request, s.
Qed.

Lemma try_raises_on_LOG_LINE_PATTERN_witness :
  let line := log_line "2.2.2.2" "-" in
  read_request Str.to_float line LOG_LINE_PATTERN = Raise ValueError ∧
  ((ValueError = TypeError ∧ LOG_LINE_PATTERN line = None) ∨
   (ValueError = ValueError ∧
    ∃ request s,
      LOG_LINE_PATTERN line = Some request ∧
      request !! "request_time"%string = Some s ∧ Str.to_float s = None)).
Proof.
  intros line.
  assert (read_request Str.to_float line LOG_LINE_PATTERN = Raise ValueError)
    as H by (vm_compute; reflexivity).
  split; [exact H|].
  exact (try_raises_on_LOG_LINE_PATTERN Str.to_float line ValueError H).
Defined.

(** A repetition of at least one character of a class does not match
    where the line ends or goes on with a character that is not of the
    class. *)
Lemma run_Repeat_None c lo hi greedy items s st :
  (0 < lo)%nat -> (∀ ch s', s = ch :: s' -> c ch = false) ->
  Re.run (Re.Repeat c lo hi greedy :: items) s st = None.
Proof.
  intros Hlo Hs. destruct lo as [|lo]; [lia|]. cbn [Re.run].
  destruct s as [|ch s].
  - by destruct greedy.
  - cbn beta iota zeta delta -[Re.run]. fold Re.run.
    rewrite (Hs ch s eq_refl). by destruct greedy.
Qed.

(** [X10] On a line of characters below U+0080, [LOG_LINE_PATTERN] matches
    from the start of the line, where a client address in decimal digits
    is expected: a line that is empty or starts with another character is
    not matched. *)
Theorem match_starts_with_digit line request :
  is_ascii line = true ->
  LOG_LINE_PATTERN line = Some request ->
  ∃ ch rest, line = String ch rest ∧ Re.digit ch = true.
Proof.
  intros _ H.
  destruct line as [|ch rest].
  - vm_compute in H. discriminate H.
  - exists ch, rest. split; [done|].
    destruct (Re.digit ch) eqn:Hd; [done|]. exfalso.
    unfold LOG_LINE_PATTERN, Re.compile in H. cbv zeta in H.
    match type of H with
    | context [Re.run ?items ?s ?st] =>
        assert (Re.run items s st = None) as Hn
    end.
    { apply (run_Repeat_None _ 1); [lia|]. intros ch' s' [= <- _]. done. }
    by rewrite Hn in H.
Qed.

Lemma match_starts_with_digit_witness :
  ∃ request,
    is_ascii (log_line "1.1.1.1" "0.125") = true ∧
    LOG_LINE_PATTERN (log_line "1.1.1.1" "0.125") = Some request ∧
    ∃ ch rest,
      log_line "1.1.1.1" "0.125" = String ch rest ∧ Re.digit ch = true.
Proof.
  destruct (matched_Some (LOG_LINE_PATTERN (log_line "1.1.1.1" "0.125")))
    as [request H]; [vm_compute; reflexivity|].
  assert (is_ascii (log_line "1.1.1.1" "0.125") = true) as Ha
    by (vm_compute; reflexivity).
  exists request. split; [exact Ha|]. split; [exact H|].
  exact (match_starts_with_digit (log_line "1.1.1.1" "0.125") request Ha H).
Defined.

(** ** The order of file names *)

Lemma ascii_compare_Lt_trans a b c :
  Ascii.compare a b = Lt -> Ascii.compare b c = Lt -> Ascii.compare a c = Lt.
Proof.
  unfold Ascii.compare. rewrite !N.compare_lt_iff. lia.
Qed.

Lemma string_compare_Lt_trans a b c :
  String.compare a b = Lt -> String.compare b c = Lt ->
  String.compare a c = Lt.
Proof.
  revert b c. induction a as [|x a IH]; intros [|y b] [|z c]; simpl;
    try done.
  destruct (Ascii.compare x y) eqn:Hxy; [| |done].
  - apply Ascii.compare_eq_iff in Hxy. subst y.
    destruct (Ascii.compare x z); [apply IH|done..].
  - intros _.
    destruct (Ascii.compare y z) eqn:Hyz; [| |done].
    + apply Ascii.compare_eq_iff in Hyz. subst z. by rewrite Hxy.
    + by rewrite (ascii_compare_Lt_trans _ _ _ Hxy Hyz).
Qed.

Lemma gt_irrefl a : Text.gt a a = false.
Proof.
  unfold Text.gt, String.ltb.
  pose proof (String.compare_antisym a a) as H.
  by destruct (String.compare a a).
Qed.

Lemma gt_trans a b c :
  Text.gt a b = true -> Text.gt b c = true -> Text.gt a c = true.
Proof.
  unfold Text.gt, String.ltb.
  destruct (String.compare b a) eqn:Hba; try done.
  destruct (String.compare c b) eqn:Hcb; try done.
  by rewrite (string_compare_Lt_trans _ _ _ Hcb Hba).
Qed.

(** ** The last log *)

Section LastLogFacts.
Context {datetime exc : Type} (w : world datetime exc).
Implicit Types (entries : list (LogEntry datetime)).

Lemma except_ValueError_Raises {A} (body : outcome exc A) e :
  except_ValueError w body = Raises e -> value_error w e = false.
Proof.
  destruct body as [a|e']; simpl; [done|].
  destruct (value_error w e') eqn:He; [done|]. by intros [= <-].
Qed.

Lemma logs_in_directory_Raises names log_template date_format e :
  logs_in_directory w names log_template date_format = Raises e ->
  value_error w e = false.
Proof.
  induction names as [|name names IH]; simpl; [done|].
  destruct (_fetch_date_from_file_name w name log_template date_format)
    as [od|e'] eqn:Hf; simpl.
  - destruct (logs_in_directory w names log_template date_format); simpl;
      [done|]. intros [= <-]. by apply IH.
  - intros [= <-]. by eapply except_ValueError_Raises.
Qed.

Lemma logs_in_directory_Returns names log_template date_format entries :
  logs_in_directory w names log_template date_format = Returns entries ->
  (∀ entry, entry ∈ entries ->
     log_name entry ∈ names ∧
     _fetch_date_from_file_name w (log_name entry) log_template date_format
       = Returns (Some (log_date entry))) ∧
  (∀ name, name ∈ names ->
     ∃ log_date,
       _fetch_date_from_file_name w name log_template date_format
         = Returns log_date ∧
       ∀ d, log_date = Some d -> mkLogEntry name d ∈ entries).
Proof.
  revert entries. induction names as [|name names IH]; intros entries; simpl.
  { intros [= <-]. split; [by intros ? ?%elem_of_nil|].
    by intros ? ?%elem_of_nil. }
  destruct (_fetch_date_from_file_name w name log_template date_format)
    as [od|e'] eqn:Hf; simpl; [|done].
  destruct (logs_in_directory w names log_template date_format)
    as [entries'|]; simpl; [|done].
  destruct (IH entries' eq_refl) as [IH1 IH2]. intros [= <-]. split.
  - intros entry Hin.
    assert (entry ∈ entries' ∨ od = Some (log_date entry) ∧
            log_name entry = name) as [Hin'|[-> <-]].
    { destruct od as [d|]; [|by left].
      apply elem_of_cons in Hin as [->|Hin]; [by right|by left]. }
    + destruct (IH1 _ Hin') as [? ?]. split; [by right|done].
    + split; [by left|done].
  - intros name' [->|Hin]%elem_of_cons.
    + exists od. split; [done|]. intros d ->. by left.
    + destruct (IH2 _ Hin) as (od' & Hod' & Hd). exists od'.
      split; [done|]. intros d Hd'. specialize (Hd d Hd').
      destruct od; [by right|done].
Qed.

Lemma entry_gt_true a b :
  entry_gt w a b = true ->
  log_name a = log_name b ∨ Text.gt (log_name a) (log_name b) = true.
Proof.
  unfold entry_gt.
  destruct (decide (log_name a = log_name b)) as [Heq|Hne]; [by left|].
  rewrite bool_decide_false by done. simpl. by right.
Qed.

Lemma entry_gt_false a b :
  entry_gt w a b = false ->
  log_name a = log_name b ∨ Text.gt (log_name a) (log_name b) = false.
Proof.
  unfold entry_gt.
  destruct (decide (log_name a = log_name b)) as [Heq|Hne]; [by left|].
  rewrite bool_decide_false by done. simpl. by right.
Qed.

Lemma max_entry_Some entries m :
  max_entry w entries = Some m ->
  m ∈ entries ∧
  ∀ entry, entry ∈ entries -> Text.gt (log_name entry) (log_name m) = false.
Proof.
  destruct entries as [|x entries]; simpl; [done|]. intros [= <-].
  assert (∀ l y seen,
    y ∈ seen ->
    (∀ entry, entry ∈ seen ->
       Text.gt (log_name entry) (log_name y) = false) ->
    fold_left (λ m item, if entry_gt w item m then item else m) l y
      ∈ seen ++ l ∧
    ∀ entry, entry ∈ seen ++ l ->
      Text.gt (log_name entry)
        (log_name
           (fold_left (λ m item, if entry_gt w item m then item else m) l y))
        = false) as H.
  { induction l as [|z l IH]; intros y seen Hy Hseen; simpl.
    { by rewrite app_nil_r. }
    replace (seen ++ z :: l) with ((seen ++ [z]) ++ l)
      by (by rewrite <-app_assoc).
    apply IH.
    { destruct (entry_gt w z y); apply elem_of_app;
        [right; by left|by left]. }
    intros entry [Hin|Hin]%elem_of_app.
    - destruct (entry_gt w z y) eqn:Hg; [|by apply Hseen].
      apply entry_gt_true in Hg as [->|Hzy]; [by apply Hseen|].
      destruct (Text.gt (log_name entry) (log_name z)) eqn:Hez; [|done].
      by rewrite <-(Hseen _ Hin), (gt_trans _ _ _ Hez Hzy).
    - apply list_elem_of_singleton in Hin. subst entry.
      destruct (entry_gt w z y) eqn:Hg; [apply gt_irrefl|].
      apply entry_gt_false in Hg as [->|Hzy]; [apply gt_irrefl|done]. }
  apply (H entries x [x]); [by left|].
  intros entry Hin. apply list_elem_of_singleton in Hin. subst entry.
  apply gt_irrefl.
Qed.

Lemma get_last_log_inv logs_dir log_template date_format names r :
  listdir w logs_dir = Returns names ->
  get_last_log w logs_dir log_template date_format = Returns r ->
  ∃ entries,
    logs_in_directory w names log_template date_format = Returns entries ∧
    r = max_entry w entries.
Proof.
  unfold get_last_log. intros ->. simpl.
  destruct (logs_in_directory w names log_template date_format)
    as [entries|e] eqn:Hl; simpl.
  - intros [= <-]. by exists entries.
  - apply logs_in_directory_Raises in Hl. by rewrite Hl.
Qed.

End LastLogFacts.

(** ** Names that end with [.gz] *)

Lemma list_ascii_of_string_app (a b : string) :
  list_ascii_of_string (a ++ b)%string
  = list_ascii_of_string a ++ list_ascii_of_string b.
Proof. induction a as [|c a IH]; simpl; [done|]. by rewrite IH. Qed.

Lemma endswith_app a suffix : Text.endswith (a ++ suffix) suffix = true.
Proof.
  unfold Text.endswith. apply bool_decide_eq_true.
  rewrite list_ascii_of_string_app, length_app.
  replace (_ + _ - _)%nat with (length (list_ascii_of_string a)) by lia.
  by rewrite drop_app_length.
Qed.

Lemma rfind_from_app c s t i found :
  Text.rfind_from c (s ++ t) i found =
  Text.rfind_from c t (i + Z.of_nat (length s)) (Text.rfind_from c s i found).
Proof.
  revert i found. induction s as [|ch s IH]; intros i found; simpl.
  - by rewrite Z.add_0_r.
  - rewrite IH. f_equal. lia.
Qed.

Lemma rfind_from_absent c s i found :
  c ∉ s -> Text.rfind_from c s i found = found.
Proof.
  revert i found. induction s as [|ch s IH]; intros i found Hc; simpl;
    [done|].
  apply not_elem_of_cons in Hc as [Hne Hc].
  rewrite decide_False by done. by apply IH.
Qed.

(** The extension [.gz] of a file name with a character that is not a
    dot is split off. *)
Lemma splitext_gz name :
  "/"%char ∉ list_ascii_of_string name ->
  (∃ ch, ch ∈ list_ascii_of_string name ∧ ch ≠ "."%char) ->
  Posixpath.splitext (name ++ ".gz") = (name, ".gz"%string).
Proof.
  intros Hsep (ch & Hch & Hdot). unfold Posixpath.splitext, Text.rfind.
  rewrite list_ascii_of_string_app, !rfind_from_app.
  rewrite (rfind_from_absent "/" (list_ascii_of_string name)) by done.
  simpl. rewrite Z.add_0_l, Nat2Z.id.
  rewrite take_app_length, drop_app_length, drop_0.
  destruct (Z.ltb_spec (-1) (Z.of_nat (length (list_ascii_of_string name))));
    [|lia].
  assert (existsb (λ ch, negb (bool_decide (ch = "."%char)))
            (list_ascii_of_string name) = true) as ->.
  { apply existsb_exists. exists ch. split; [by apply list_elem_of_In|].
    by rewrite bool_decide_false. }
  simpl. by rewrite string_of_list_ascii_of_string.
Qed.

(** ** [get_last_log] *)

Section LastLogTheorems.
Context {datetime exc : Type} (w : world datetime exc).

(** [X11] A compressed log is dated as the log of the same name: for a
    file name without [/] that has a character other than a dot and does
    not end with [.gz] itself, the name with [.gz] after it gets the date,
    or the absence of a date, of the name alone. *)
Theorem gz_log_dated_as_plain name template date_format :
  "/"%char ∉ list_ascii_of_string name ->
  (∃ ch, ch ∈ list_ascii_of_string name ∧ ch ≠ "."%char) ->
  Text.endswith name ".gz" = false ->
  _fetch_date_from_file_name w (name ++ ".gz") template date_format
  = _fetch_date_from_file_name w name template date_format.
Proof.
  intros Hsep Hch Hgz. unfold _fetch_date_from_file_name.
  by rewrite endswith_app, Hgz, splitext_gz.
Qed.

(** [X12] [get_last_log] returns [None] exactly when no file name of the
    directory gets a date, an empty directory included: no exception is
    raised for names that do not follow the template. *)
Theorem no_dated_name_no_log logs_dir log_template date_format names :
  listdir w logs_dir = Returns names ->
  get_last_log w logs_dir log_template date_format = Returns None ↔
  ∀ name, name ∈ names ->
    _fetch_date_from_file_name w name log_template date_format
      = Returns None.
Proof.
  intros Hdir. split.
  - intros (entries & Hl & Hmax)%(get_last_log_inv _ _ _ _ names); [|done].
    destruct entries as [|entry entries]; [|done].
    apply logs_in_directory_Returns in Hl as [_ Hl].
    intros name (log_date & Hf & Hd)%Hl.
    destruct log_date as [d|]; [|done].
    specialize (Hd d eq_refl). by apply elem_of_nil in Hd.
  - intros Hnames. unfold get_last_log. rewrite Hdir. simpl. clear Hdir.
    assert (logs_in_directory w names log_template date_format = Returns [])
      as ->; [|done].
    induction names as [|name names IH]; simpl; [done|].
    rewrite (Hnames name) by left. simpl.
    rewrite IH; [done|]. intros name' Hin. apply Hnames. by right.
Qed.

(** [X13] The entry that [get_last_log] returns is a file of the
    directory with the date of its name, and it is chosen by name: no
    dated file of the directory has a greater name.  The dates are
    compared between entries of the same name only. *)
Theorem last_log_has_greatest_name logs_dir log_template date_format names
  entry :
  listdir w logs_dir = Returns names ->
  get_last_log w logs_dir log_template date_format = Returns (Some entry) ->
  log_name entry ∈ names ∧
  _fetch_date_from_file_name w (log_name entry) log_template date_format
    = Returns (Some (log_date entry)) ∧
  ∀ name d,
    name ∈ names ->
    _fetch_date_from_file_name w name log_template date_format
      = Returns (Some d) ->
    Text.gt name (log_name entry) = false.
Proof.
  intros Hdir (entries & Hl & Hmax)%(get_last_log_inv _ _ _ _ names);
    [|done].
  symmetry in Hmax. apply max_entry_Some in Hmax as [Hin Hmax].
  apply logs_in_directory_Returns in Hl as [Hl1 Hl2].
  destruct (Hl1 _ Hin) as [Hname Hfetch]. split_and!; [done..|].
  intros name d (log_date & Hf & Hd)%Hl2 Hf'.
  rewrite Hf in Hf'. injection Hf' as ->.
  apply (Hmax _ (Hd d eq_refl)).
Qed.

End LastLogTheorems.

(** ** [main] *)

Lemma top_reports_empty size : top_reports [] size = [].
Proof.
  unfold top_reports, Py.slice_to. simpl.
  destruct (0 <=? _); [apply take_nil|done].
Qed.

(** A file without lines gives a [Report] without rows, whose counters
    are zero. *)
Lemma create_report_empty py_float p report_size accuracy :
  create_report py_float [] p report_size accuracy = Ok (mkReport [] 0 0).
Proof.
  unfold create_report, accumulate, summarize_report. simpl.
  by rewrite top_reports_empty.
Qed.

Lemma round_int_zero s : round_int (SF2Prim (S754_zero s)) = Ok 0.
Proof. by destruct s. Qed.

Lemma int_truediv_0 b :
  b ≠ 0 -> ∃ s, Py.int_truediv 0 b = Ok (SF2Prim (S754_zero s)).
Proof. intros Hb. destruct b; [done|..]; by eexists. Qed.

Section MainTheorems.
Context {datetime exc : Type} (w : world datetime exc).

Lemma of_result_Returns {A} (r : result A) a :
  of_result (exc:=exc) r = Returns a -> r = Ok a.
Proof. destruct r; simpl; congruence. Qed.

Lemma of_builtin_Returns {A} (r : outcome exc A) a :
  of_builtin r = Returns a -> r = Returns a.
Proof. destruct r; simpl; congruence. Qed.

Lemma outcome_bind_Returns {E A B} (r : outcome E A) (k : A -> outcome E B)
  b :
  r ≫= k = Returns b -> ∃ a, r = Returns a ∧ k a = Returns b.
Proof. destruct r as [a|e]; [|done]. simpl. eauto. Qed.

(** The steps of a call of [main] that returns. *)
Lemma main_Returns config d :
  main w config = Returns d ->
  get_last_log w (LOGS_DIR config) (LOG_NAME_TEMPLATE config)
    (LOG_DATE_FORMAT config) = Returns None ∧ d = NoLog ∨
  ∃ log date report_name,
    get_last_log w (LOGS_DIR config) (LOG_NAME_TEMPLATE config)
      (LOG_DATE_FORMAT config) = Returns (Some log) ∧
    strftime w (log_date log) (REPORT_DATE_FORMAT config) = Returns date ∧
    format_date w (REPORT_NAME_TEMPLATE config) date = Returns report_name ∧
    let report_path := Posixpath.join (REPORTS_DIR config) report_name in
    (path_exists w report_path = true ∧ d = AlreadyReported ∨
     ∃ report_size accuracy r q errors_percent too_many,
       path_exists w report_path = false ∧
       to_int w (REPORT_SIZE config) = Ok report_size ∧
       to_int w (REPORT_ACCURACY config) = Ok accuracy ∧
       create_report (float_of_str w)
         (read_file w (Posixpath.join (LOGS_DIR config) (log_name log)))
         LOG_LINE_PATTERN report_size accuracy = Ok r ∧
       Py.int_truediv (100 * total_errors r) (total_requests r) = Ok q ∧
       round_int q = Ok errors_percent ∧
       exceeds errors_percent (ERRORS_PERCENT_LIMIT config) = Ok too_many ∧
       d = if too_many : bool
           then ErrorsLogged (total_errors r) errors_percent (log_name log)
           else Rendered (report r) report_path (REPORT_TEMPLATE config)).
Proof.
  unfold main.
  intros (log & Hlog%of_builtin_Returns & H)%outcome_bind_Returns.
  destruct log as [log|]; [|left; split; congruence].
  right.
  apply outcome_bind_Returns in H as (date & Hdate%of_builtin_Returns & H).
  apply outcome_bind_Returns in H as (name & Hname%of_builtin_Returns & H).
  exists log, date, name. split_and!; [done..|]. simpl.
  destruct (path_exists w _) eqn:Hex; [left; split; congruence|]. right.
  apply outcome_bind_Returns in H as (size & Hsize%of_result_Returns & H).
  apply outcome_bind_Returns in H as (acc & Hacc%of_result_Returns & H).
  apply outcome_bind_Returns in H as (r & Hr%of_result_Returns & H).
  apply outcome_bind_Returns in H as (q & Hq%of_result_Returns & H).
  apply outcome_bind_Returns in H as (ep & Hep%of_result_Returns & H).
  apply outcome_bind_Returns in H as (tm & Htm%of_result_Returns & H).
  exists size, acc, r, q, ep, tm. split_and!; try done.
  destruct tm; congruence.
Qed.

(** [X14] With an [ERRORS_PERCENT_LIMIT] that is a [str], as every value
    read from a configuration file is, [main] renders no report and logs
    no error message: when it returns, no log was found or the report was
    there already. *)
Theorem str_limit_never_renders config s d :
  ERRORS_PERCENT_LIMIT config = VStr s ->
  main w config = Returns d -> d = NoLog ∨ d = AlreadyReported.
Proof.
  intros Hlimit [[_ ->]|(log & date & name & _ & _ & _ & H)]%main_Returns;
    [by left|].
  destruct H as [[_ ->]|H]; [by right|].
  destruct H as (? & ? & ? & ? & ep & ? & _ & _ & _ & _ & _ & _ & H & _).
  by rewrite Hlimit in H.
Qed.

(** [X15] With an [ERRORS_PERCENT_LIMIT] that is an [int] not above zero,
    as the 0 of [CONFIG], the errors of a run never keep [main] from
    rendering: the error message is not logged. *)
Theorem no_limit_no_error_message config l d :
  ERRORS_PERCENT_LIMIT config = VInt l -> l <= 0 ->
  main w config = Returns d ->
  ∀ errors errors_percent file,
    d ≠ ErrorsLogged errors errors_percent file.
Proof.
  intros Hlimit Hl [[_ ->]|(log & date & name & _ & _ & _ & H)]%main_Returns;
    [done|].
  destruct H as [[_ ->]|H]; [done|].
  destruct H as (? & ? & ? & ? & ep & tm & _ & _ & _ & _ & _ & _ & H & ->).
  rewrite Hlimit in H. simpl in H. injection H as <-.
  destruct (Z.ltb_spec 0 l); [lia|]. by rewrite andb_false_r.
Qed.

(** [X16] [main] renders to a path at which nothing exists, with the
    template of [config]; the rows are those of the [Report] of the last
    log, in which at least one line was read. *)
Theorem rendered_report_is_new config rows report_path template_path :
  main w config = Returns (Rendered rows report_path template_path) ->
  path_exists w report_path = false ∧
  template_path = REPORT_TEMPLATE config ∧
  ∃ log report_size accuracy r,
    get_last_log w (LOGS_DIR config) (LOG_NAME_TEMPLATE config)
      (LOG_DATE_FORMAT config) = Returns (Some log) ∧
    create_report (float_of_str w)
      (read_file w (Posixpath.join (LOGS_DIR config) (log_name log)))
      LOG_LINE_PATTERN report_size accuracy = Ok r ∧
    rows = report r ∧ total_requests r ≠ 0.
Proof.
  intros [[_ ?]|(log & date & name & Hlog & _ & _ & H)]%main_Returns;
    [done|].
  destruct H as [[_ ?]|H]; [done|].
  destruct H as (size & acc & r & q & ep & tm & Hex & _ & _ & Hr & Hq & _ &
                 _ & Hd).
  destruct tm; [done|]. injection Hd as -> -> ->.
  split_and!; [done..|]. exists log, size, acc, r. split_and!; [done..|].
  intros Hz. by rewrite Hz in Hq.
Qed.

(** [X17] When [main] logs the error message, the limit is an [int]
    above zero and below the percentage of errors, and the run has counted
    one error, the line at which it stopped. *)
Theorem error_message_after_an_error config errors errors_percent file :
  main w config = Returns (ErrorsLogged errors errors_percent file) ->
  errors = 1 ∧
  ∃ l, ERRORS_PERCENT_LIMIT config = VInt l ∧ 0 < l < errors_percent.
Proof.
  intros [[_ ?]|(log & date & name & Hlog & _ & _ & H)]%main_Returns;
    [done|].
  destruct H as [[_ ?]|H]; [done|].
  destruct H as (size & acc & r & q & ep & tm & Hex & _ & _ & Hr & Hq & Hep &
                 Htm & Hd).
  destruct tm; [|done]. injection Hd as -> -> ->.
  destruct (ERRORS_PERCENT_LIMIT config) as [l|s]; [|done].
  simpl in Htm. injection Htm as Htm.
  apply andb_true_iff in Htm as [Hlt%Z.ltb_lt Hpos%Z.ltb_lt].
  split; [|exists l; split; [done|lia]].
  apply create_report_inv in Hr as (st & d' & Hacc & _ & Htr & Hte).
  pose proof (read_lines_counters _ _ _ _ _ _ Hacc) as [_ Hrange].
  simpl in Hrange. rewrite <-Hte in Hrange.
  destruct (decide (total_errors r = 0)) as [Hz|]; [|lia].
  rewrite Hz in Hq. change (100 * 0) with 0 in Hq.
  destruct (decide (total_requests r = 0)) as [Hz'|Hnz].
  { by rewrite Hz' in Hq. }
  destruct (int_truediv_0 _ Hnz) as [s Hs]. rewrite Hs in Hq.
  assert (q = SF2Prim (S754_zero s)) as -> by congruence.
  rewrite round_int_zero in Hep. injection Hep as <-. lia.
Qed.

(** [X18] On a last log without lines, [main] raises
    [ZeroDivisionError]: the [Report] has [total_requests] zero, by which
    the percentage of errors is divided. *)
Theorem empty_log_divides_by_zero config log date report_name report_size
  accuracy :
  get_last_log w (LOGS_DIR config) (LOG_NAME_TEMPLATE config)
    (LOG_DATE_FORMAT config) = Returns (Some log) ->
  strftime w (log_date log) (REPORT_DATE_FORMAT config) = Returns date ->
  format_date w (REPORT_NAME_TEMPLATE config) date = Returns report_name ->
  path_exists w (Posixpath.join (REPORTS_DIR config) report_name) = false ->
  to_int w (REPORT_SIZE config) = Ok report_size ->
  to_int w (REPORT_ACCURACY config) = Ok accuracy ->
  read_file w (Posixpath.join (LOGS_DIR config) (log_name log)) = [] ->
  main w config = Raises (inl ZeroDivisionError).
Proof.
  intros Hlog Hdate Hname Hex Hsize Hacc Hfile. unfold main.
  rewrite Hlog. simpl. rewrite Hdate. simpl. rewrite Hname. simpl.
  rewrite Hex, Hsize. simpl. rewrite Hacc. simpl.
  by rewrite Hfile, create_report_empty.
Qed.

End MainTheorems.

(** ** The theorems on a small system *)

Lemma gz_log_dated_as_plain_witness :
  let w := sample_world [] [] [] in
  let name := log_name last_log in
  ("/"%char ∉ list_ascii_of_string name) ∧
  (∃ ch, ch ∈ list_ascii_of_string name ∧ ch ≠ "."%char) ∧
  Text.endswith name ".gz" = false ∧
  _fetch_date_from_file_name w (name ++ ".gz") (LOG_NAME_TEMPLATE CONFIG)
    (LOG_DATE_FORMAT CONFIG)
  = _fetch_date_from_file_name w name (LOG_NAME_TEMPLATE CONFIG)
      (LOG_DATE_FORMAT CONFIG).
Proof.
  intros w name.
  assert ("/"%char ∉ list_ascii_of_string name) as H1
    by (apply (bool_decide_unpack _); vm_compute; exact I).
  assert (∃ ch, ch ∈ list_ascii_of_string name ∧ ch ≠ "."%char) as H2
    by (exists "n"%char; split; [apply list_elem_of_here|discriminate]).
  assert (Text.endswith name ".gz" = false) as H3
    by (vm_compute; reflexivity).
  split; [exact H1|]. split; [exact H2|]. split; [exact H3|].
  exact (gz_log_dated_as_plain w name (LOG_NAME_TEMPLATE CONFIG)
           (LOG_DATE_FORMAT CONFIG) H1 H2 H3).
Defined.

Lemma no_dated_name_no_log_witness :
  let names := ["test.txt"; "nginx-access-ui.log-2017"]%string in
  let w := sample_world names [] [] in
  listdir w "./logs" = Returns names ∧
  (get_last_log w "./logs" (LOG_NAME_TEMPLATE CONFIG) (LOG_DATE_FORMAT CONFIG)
     = Returns None ↔
   ∀ name, name ∈ names ->
     _fetch_date_from_file_name w name (LOG_NAME_TEMPLATE CONFIG)
       (LOG_DATE_FORMAT CONFIG) = Returns None).
Proof.
  intros names w. split; [reflexivity|].
  exact (no_dated_name_no_log w "./logs" (LOG_NAME_TEMPLATE CONFIG)
           (LOG_DATE_FORMAT CONFIG) names eq_refl).
Defined.

Lemma last_log_has_greatest_name_witness :
  let names :=
    ["test.txt"; "nginx-access-ui.log-20170630";
     "nginx-access-ui.log-20170629.gz"]%string in
  let w := sample_world names [] [] in
  listdir w "./logs" = Returns names ∧
  get_last_log w "./logs" (LOG_NAME_TEMPLATE CONFIG) (LOG_DATE_FORMAT CONFIG)
    = Returns (Some last_log) ∧
  log_name last_log ∈ names ∧
  _fetch_date_from_file_name w (log_name last_log) (LOG_NAME_TEMPLATE CONFIG)
    (LOG_DATE_FORMAT CONFIG) = Returns (Some (log_date last_log)) ∧
  ∀ name d,
    name ∈ names ->
    _fetch_date_from_file_name w name (LOG_NAME_TEMPLATE CONFIG)
      (LOG_DATE_FORMAT CONFIG) = Returns (Some d) ->
    Text.gt name (log_name last_log) = false.
Proof.
  intros names w.
  assert (get_last_log w "./logs" (LOG_NAME_TEMPLATE CONFIG)
            (LOG_DATE_FORMAT CONFIG) = Returns (Some last_log)) as H
    by (vm_compute; reflexivity).
  split; [reflexivity|]. split; [exact H|].
  exact (last_log_has_greatest_name w "./logs" (LOG_NAME_TEMPLATE CONFIG)
           (LOG_DATE_FORMAT CONFIG) names last_log eq_refl H).
Defined.

Lemma str_limit_never_renders_witness :
  let w :=
    sample_world [log_name last_log] sample
      ["./reports/report-20170630.html"%string] in
  let config := with_limit (VStr "10") in
  ERRORS_PERCENT_LIMIT config = VStr "10" ∧
  main w config = Returns AlreadyReported ∧
  (AlreadyReported = NoLog ∨ AlreadyReported = AlreadyReported).
Proof.
  intros w config.
  assert (main w config = Returns AlreadyReported) as H
    by (vm_compute; reflexivity).
  split; [reflexivity|]. split; [exact H|].
  exact (str_limit_never_renders w config "10" AlreadyReported eq_refl H).
Defined.

Lemma no_limit_no_error_message_witness :
  let w := sample_world [log_name last_log] sample_dash [] in
  let d :=
    Rendered (report sample_dash_report) "./reports/report-20170630.html"
      "./report.html" in
  ERRORS_PERCENT_LIMIT CONFIG = VInt 0 ∧ 0 <= 0 ∧
  main w CONFIG = Returns d ∧
  ∀ errors errors_percent file, d ≠ ErrorsLogged errors errors_percent file.
Proof.
  intros w d.
  assert (main w CONFIG = Returns d) as H by (vm_compute; reflexivity).
  assert (0 <= 0) as Hl by lia.
  split; [reflexivity|]. split; [exact Hl|]. split; [exact H|].
  exact (no_limit_no_error_message w CONFIG 0 d eq_refl Hl H).
Defined.

Lemma rendered_report_is_new_witness :
  let w := sample_world [log_name last_log] sample [] in
  let report_path := "./reports/report-20170630.html"%string in
  main w CONFIG
    = Returns (Rendered (report sample_report) report_path "./report.html") ∧
  path_exists w report_path = false ∧
  "./report.html"%string = REPORT_TEMPLATE CONFIG ∧
  ∃ log report_size accuracy r,
    get_last_log w (LOGS_DIR CONFIG) (LOG_NAME_TEMPLATE CONFIG)
      (LOG_DATE_FORMAT CONFIG) = Returns (Some log) ∧
    create_report (float_of_str w)
      (read_file w (Posixpath.join (LOGS_DIR CONFIG) (log_name log)))
      LOG_LINE_PATTERN report_size accuracy = Ok r ∧
    report sample_report = report r ∧ total_requests r ≠ 0.
Proof.
  intros w report_path.
  assert (main w CONFIG
          = Returns (Rendered (report sample_report) report_path
                       "./report.html")) as H by (vm_compute; reflexivity).
  split; [exact H|].
  exact (rendered_report_is_new w CONFIG (report sample_report) report_path
           "./report.html" H).
Defined.

Lemma error_message_after_an_error_witness :
  let w := sample_world [log_name last_log] sample_dash [] in
  let config := with_limit (VInt 10) in
  main w config = Returns (ErrorsLogged 1 50 (log_name last_log)) ∧
  1 = 1 ∧
  ∃ l, ERRORS_PERCENT_LIMIT config = VInt l ∧ 0 < l < 50.
Proof.
  intros w config.
  assert (main w config = Returns (ErrorsLogged 1 50 (log_name last_log)))
    as H by (vm_compute; reflexivity).
  split; [exact H|].
  exact (error_message_after_an_error w config 1 50 (log_name last_log) H).
Defined.

Lemma empty_log_divides_by_zero_witness :
  let w := sample_world [log_name last_log] [] [] in
  let report_name := "report-20170630.html"%string in
  get_last_log w (LOGS_DIR CONFIG) (LOG_NAME_TEMPLATE CONFIG)
    (LOG_DATE_FORMAT CONFIG) = Returns (Some last_log) ∧
  strftime w (log_date last_log) (REPORT_DATE_FORMAT CONFIG)
    = Returns "20170630"%string ∧
  format_date w (REPORT_NAME_TEMPLATE CONFIG) "20170630"
    = Returns report_name ∧
  path_exists w (Posixpath.join (REPORTS_DIR CONFIG) report_name) = false ∧
  to_int w (REPORT_SIZE CONFIG) = Ok 100 ∧
  to_int w (REPORT_ACCURACY CONFIG) = Ok 2 ∧
  read_file w (Posixpath.join (LOGS_DIR CONFIG) (log_name last_log)) = [] ∧
  main w CONFIG = Raises (inl ZeroDivisionError).
Proof.
  intros w report_name.
  assert (get_last_log w (LOGS_DIR CONFIG) (LOG_NAME_TEMPLATE CONFIG)
            (LOG_DATE_FORMAT CONFIG) = Returns (Some last_log)) as H1
    by (vm_compute; reflexivity).
  assert (format_date w (REPORT_NAME_TEMPLATE CONFIG) "20170630"
          = Returns report_name) as H3 by (vm_compute; reflexivity).
  assert (path_exists w (Posixpath.join (REPORTS_DIR CONFIG) report_name)
          = false) as H4 by (vm_compute; reflexivity).
  split; [exact H1|]. split; [reflexivity|]. split; [exact H3|].
  split; [exact H4|]. split; [reflexivity|]. split; [reflexivity|].
  split; [reflexivity|].
  exact (empty_log_divides_by_zero w CONFIG last_log "20170630" report_name
           100 2 H1 eq_refl H3 H4 eq_refl eq_refl eq_refl).
Defined.

(** ** A limit that keeps every aggregate *)

Lemma top_reports_all d size i :
  Z.of_nat (length d) <= size -> (i < length d)%nat -> i ∈ top_reports d size.
Proof.
  intros Hsize Hi. unfold top_reports, Py.slice_to.
  destruct (Z.ltb_spec size (Z.of_nat (length d))); [lia|].
  destruct (Z.leb_spec 0 (Z.of_nat (length d))); [|lia].
  rewrite Nat2Z.id, firstn_all2.
  - rewrite sorted_perm. apply elem_of_seq. lia.
  - by rewrite (Permutation_length (sorted_perm _ _)), length_seq.
Qed.

(** [X19] With a [report_size] that is not below the number of client
    addresses added, every address added has a row in the [Report]. *)
Theorem every_client_has_a_row py_float lines p report_size accuracy r :
  create_report py_float lines p report_size accuracy = Ok r ->
  Z.of_nat (size (list_to_set (C:=gset string)
                    (additions py_float lines p).*1)) <= report_size ->
  ∀ k, k ∈ (additions py_float lines p).*1 ->
       ∃ row, row ∈ report r ∧ url row = Some k.
Proof.
  intros Hr Hsize k Hk.
  destruct (create_report_rows _ _ _ _ _ _ Hr)
    as (st & refs & Hacc & -> & Hrows).
  pose proof (read_lines_consistent py_float lines p accuracy [] initial st
                (consistent_initial _) Hacc) as (Hnd & Hkeys & Hrec).
  cbn [app] in Hkeys, Hrec.
  assert (list_to_set (C:=gset string) (additions py_float lines p).*1
          = list_to_set (l_report st).*1) as Hset.
  { apply set_eq. intros k'. rewrite !elem_of_list_to_set. split; [auto|].
    intros ([k'' v] & -> & [i Hi]%list_elem_of_lookup_1)%list_elem_of_fmap.
    simpl. destruct (Hrec _ _ _ Hi) as (_ & _ & Hne & _).
    destruct (decide (k'' ∈ (additions py_float lines p).*1)) as [|Hnot];
      [done|].
    by apply times_of_absent in Hnot. }
  rewrite Hset, size_list_to_set, length_fmap in Hsize by done.
  apply Hkeys, list_elem_of_fmap in Hk as ([k' v] & -> & Hin). simpl.
  apply list_elem_of_lookup_1 in Hin as [i Hi].
  assert (i ∈ top_reports (l_report st) report_size) as Href.
  { apply top_reports_all; [done|]. by eapply lookup_lt_Some. }
  apply list_elem_of_lookup_1 in Href as [j Hj].
  destruct (Forall2_lookup_l _ _ _ _ _ Hrows Hj)
    as (row & Hrow & k'' & v' & ts & s & Hv & _ & _ & ->).
  exists (update_derived s (pop_requests v')).
  split; [by eapply list_elem_of_lookup_2|].
  rewrite Hi in Hv. injection Hv as <- <-. simpl.
  by destruct (Hrec _ _ _ Hi) as (-> & _).
Qed.

Lemma every_client_has_a_row_witness :
  create_report Str.to_float sample LOG_LINE_PATTERN 100 2 = Ok sample_report ∧
  Z.of_nat (size (list_to_set (C:=gset string)
                    (additions Str.to_float sample LOG_LINE_PATTERN).*1))
    <= 100 ∧
  ∀ k, k ∈ (additions Str.to_float sample LOG_LINE_PATTERN).*1 ->
       ∃ row, row ∈ report sample_report ∧ url row = Some k.
Proof.
  assert (Z.of_nat (size (list_to_set (C:=gset string)
                            (additions Str.to_float sample
                               LOG_LINE_PATTERN).*1)) <= 100) as H.
  { apply Z.leb_le. vm_compute. reflexivity. }
  split; [exact sample_report_eq|]. split; [exact H|].
  exact (every_client_has_a_row Str.to_float sample LOG_LINE_PATTERN 100 2
           sample_report sample_report_eq H).
Defined.

(** ** The exceptions of [get_last_log] *)

(** [X20] No [ValueError] leaves [get_last_log]: what it raises is an
    exception of another class, raised by [os.listdir] or by
    [_fetch_date_from_file_name] on a name of the directory. *)
Theorem get_last_log_raises_no_ValueError {datetime exc : Type}
  (w : world datetime exc) logs_dir log_template date_format e :
  get_last_log w logs_dir log_template date_format = Raises e ->
  value_error w e = false ∧
  (listdir w logs_dir = Raises e ∨
   ∃ names name,
     listdir w logs_dir = Returns names ∧ name ∈ names ∧
     _fetch_date_from_file_name w name log_template date_format = Raises e).
Proof.
  unfold get_last_log.
  destruct (except_ValueError w _) as [[entries|]|e'] eqn:H; try done.
  intros [= ->]. split; [by eapply except_ValueError_Raises|].
  destruct (listdir w logs_dir) as [names|e'] eqn:Hdir; simpl in H.
  - right. exists names.
    destruct (logs_in_directory w names log_template date_format)
      as [entries|e'] eqn:Hl; simpl in H; [done|].
    assert (e' = e) as ->.
    { destruct (value_error w e'); congruence. }
    clear H Hdir. induction names as [|name names IH]; simpl in Hl; [done|].
    destruct (_fetch_date_from_file_name w name log_template date_format)
      as [od|e'] eqn:Hf; simpl in Hl.
    + destruct (logs_in_directory w names log_template date_format)
        as [entries|e'] eqn:Hl'; simpl in Hl; [done|].
      injection Hl as ->.
      destruct (IH eq_refl) as (name' & _ & Hin & Hf').
      exists name'. split_and!; [done|by right|done].
    + injection Hl as ->. exists name. split_and!; [done|by left|done].
  - left. destruct (value_error w e'); congruence.
Qed.

Lemma get_last_log_raises_no_ValueError_witness :
  let w := missing_logs_dir in
  get_last_log w "./logs" (LOG_NAME_TEMPLATE CONFIG) (LOG_DATE_FORMAT CONFIG)
    = Raises false ∧
  value_error w false = false ∧
  (listdir w "./logs" = Raises false ∨
   ∃ names name,
     listdir w "./logs" = Returns names ∧ name ∈ names ∧
     _fetch_date_from_file_name w name (LOG_NAME_TEMPLATE CONFIG)
       (LOG_DATE_FORMAT CONFIG) = Raises false).
Proof.
  intros w. split; [reflexivity|].
  exact (get_last_log_raises_no_ValueError w "./logs"
           (LOG_NAME_TEMPLATE CONFIG) (LOG_DATE_FORMAT CONFIG) false eq_refl).
Defined.
